(** * Entity aggregation of the Panama field reports dashboard

    A shallow embedding of [extract_entities_from_sentiment_data] and
    [create_entity_dataframe] from [streamlit_app.py], and the properties of
    the roster they build; then the two loaders and what the entities page
    and the cards page compute from the roster.

    Python dictionaries that are only read through [.get] are finite maps
    ([gmap]); the [entities] dictionary of a document is iterated with
    [.items()], so it is an association list in the dictionary's iteration
    order; the roster is a Python list of dictionaries that is searched from
    the front and updated in place, so it is a list updated by index. *)

From stdpp Require Import gmap strings list sorting.

Open Scope string_scope.
Open Scope nat_scope.
Open Scope list_scope.

(** ** Data model *)

(** The mapping of one mention: [entity_data]. Its values are strings. *)
Abbreviation EntityData := (gmap string string).

(** One document: only its optional ['entities'] key is read. *)
Record Document := mkDocument {
  entities : option (list (string * EntityData))
}.

(** The top-level JSON object: its optional ['documents'] key, and the names
    of the other keys it holds (their values are never read). *)
Record SentimentData := mkSentimentData {
  documents : option (list Document);
  other_keys : list string
}.

(** What [load_sentiment_data] can hand over: [None], or a decoded JSON
    value. Of an array only the length matters here, and a number is an
    integer. *)
Inductive PyData :=
| PyNone
| PyBool (b : bool)
| PyInt (z : Z)
| PyStr (s : string)
| PyList (len : nat)
| PyDict (d : SentimentData).

(** A row of the roster: the dictionary appended to [entities]. *)
Record EntityRecord := mkEntityRecord {
  name : string;
  type : string;
  sentiment : string;
  mention_count : nat;
  government_role : string
}.

Inductive PyExn := AttributeError.

Inductive result (A : Type) :=
| Ok (a : A)
| Raise (e : PyExn).
Arguments Ok {A} a.
Arguments Raise {A} e.

(** ** The aggregator *)

(** Python's truth value of the top-level input ([not data]). *)
Definition truthy (data : PyData) : bool :=
  match data with
  | PyNone => false
  | PyBool b => b
  | PyInt z => negb (z =? 0)%Z
  | PyStr s => negb (bool_decide (s = ""))
  | PyList len => negb (len =? 0)%nat
  | PyDict d =>
      match documents d, other_keys d with
      | None, [] => false
      | _, _ => true
      end
  end.

(** [data.get('documents', [])]: only a dictionary has [.get]. *)
Definition get_documents (data : PyData) : result (list Document) :=
  match data with
  | PyDict d => Ok (default [] (documents d))
  | _ => Raise AttributeError
  end.

(** [doc.get('entities', {}).items()] *)
Definition doc_entities (doc : Document) : list (string * EntityData) :=
  default [] (entities doc).

Definition entity_roles : gmap string string :=
  <["José Raúl Mulino" := "President of Panama"]>
  (<["Ana Rojas" := "Defense Chief"]>
  (<["Carlos Méndez" := "Minister of the Interior"]>
  (<["Marta Linares" := "Vice President"]> ∅))).

(** The three reads of a mention, with their defaults. *)
Definition mention_name (entity_data : EntityData) : string :=
  default "Unknown" (entity_data !! "entity_name").
Definition mention_sentiment (entity_data : EntityData) : string :=
  default "neutral" (entity_data !! "sentiment").
Definition mention_type (entity_data : EntityData) : string :=
  default "Unknown" (entity_data !! "entity_type").

(** The body of the inner loop. [existing_entity] aliases the first row of
    the roster with the mention's name, so the two assignments update the
    roster at that row's index. A row is a dictionary of five keys, hence
    true in [if existing_entity]. *)
Definition process_mention (roster : list EntityRecord)
    (entity_data : EntityData) : list EntityRecord :=
  let entity_name := mention_name entity_data in
  let sentiment_ := mention_sentiment entity_data in
  let entity_type := mention_type entity_data in
  let government_role_ := default "Unknown Role" (entity_roles !! entity_name) in
  match list_find (λ e, name e = entity_name) roster with
  | Some (i, e) =>
      let e1 := mkEntityRecord (name e) (type e) (sentiment e)
                  (mention_count e + 1) (government_role e) in
      let e2 := if decide (sentiment_ ≠ sentiment e1)
                then mkEntityRecord (name e1) (type e1) "mixed"
                       (mention_count e1) (government_role e1)
                else e1 in
      <[i := e2]> roster
  | None =>
      roster ++ [mkEntityRecord entity_name entity_type sentiment_ 1
                   government_role_]
  end.

(** The inner loop, [for entity_id, entity_data in doc_entities.items()]. *)
Definition process_document (roster : list EntityRecord) (doc : Document)
    : list EntityRecord :=
  fold_left (λ acc item, process_mention acc item.2) (doc_entities doc) roster.

(** The outer loop, [for doc in documents], from [entities = []]. *)
Definition aggregate (docs : list Document) : list EntityRecord :=
  fold_left process_document docs [].

Definition extract_entities_from_sentiment_data (data : PyData)
    : result (list EntityRecord) :=
  if negb (truthy data) then Ok []
  else
    match get_documents data with
    | Raise e => Raise e
    | Ok docs => Ok (aggregate docs)
    end.

(** A well-formed document set as the top-level input. *)
Definition document_set (docs : list Document) (others : list string) : PyData :=
  PyDict (mkSentimentData (Some docs) others).

(** Every mention of the input, in processing order. *)
Definition all_mentions (docs : list Document) : list EntityData :=
  concat (map (λ doc, map snd (doc_entities doc)) docs).

(** [pd.DataFrame(entities).sort_values('mention_count', ascending=False)].
    The data frame is the list of its rows. [sort_values] belongs to pandas,
    so it is a parameter: the rows reordered by the column, largest first. *)
Definition by_mention_count_desc (a b : EntityRecord) : Prop :=
  mention_count b ≤ mention_count a.

Definition create_entity_dataframe
    (sort_values : list EntityRecord → list EntityRecord)
    (rows : list EntityRecord) : list EntityRecord :=
  match rows with
  | [] => []
  | _ => sort_values rows
  end.

(** ** Views used to state the properties *)

(** The row appended for a name's first mention, and the in-place update of
    an existing row by a later one. *)
Definition new_row (m : EntityData) : EntityRecord :=
  mkEntityRecord (mention_name m) (mention_type m) (mention_sentiment m) 1
    (default "Unknown Role" (entity_roles !! mention_name m)).

Definition merge_row (e : EntityRecord) (m : EntityData) : EntityRecord :=
  mkEntityRecord (name e) (type e)
    (if decide (mention_sentiment m ≠ sentiment e) then "mixed" else sentiment e)
    (mention_count e + 1) (government_role e).

(** The roster read as a name-keyed index: the first row of a name. *)
Definition find_row (n : string) (roster : list EntityRecord)
    : option EntityRecord :=
  snd <$> list_find (λ e, name e = n) roster.

(** What one mention does to the entry of name [n] in that index. *)
Definition entity_step (n : string) (o : option EntityRecord)
    (m : EntityData) : option EntityRecord :=
  if decide (mention_name m = n)
  then Some (match o with Some e => merge_row e m | None => new_row m end)
  else o.

(** The mentions of one name, and the first of them. *)
Definition mentions_of (n : string) (ms : list EntityData) : list EntityData :=
  filter (λ m, mention_name m = n) ms.

Definition first_mention (n : string) (ms : list EntityData)
    : option EntityData :=
  head (mentions_of n ms).

(** The distinct names of a sequence, each at its first occurrence. *)
Fixpoint distinct_in_order (seen ns : list string) : list string :=
  match ns with
  | [] => []
  | n :: ns' =>
      if decide (n ∈ seen) then distinct_in_order seen ns'
      else n :: distinct_in_order (n :: seen) ns'
  end.

(** ** Sample inputs *)

Definition mention (fields : list (string * string)) : EntityData :=
  list_to_map fields.

(** Two documents: [A] negative; then [A] positive and [B] neutral. *)
Definition scenario_docs : list Document :=
  [ mkDocument (Some [("0", mention [("entity_name", "A"); ("sentiment", "negative")])]);
    mkDocument (Some [("0", mention [("entity_name", "A"); ("sentiment", "positive")]);
                      ("1", mention [("entity_name", "B"); ("sentiment", "neutral")])]) ].

Definition row_A : EntityRecord :=
  mkEntityRecord "A" "Unknown" "mixed" 2 "Unknown Role".
Definition row_B : EntityRecord :=
  mkEntityRecord "B" "Unknown" "neutral" 1 "Unknown Role".

(** Three documents with one mention each: [A], [B], [B]. *)
Definition late_favourite_docs : list Document :=
  [ mkDocument (Some [("0", mention [("entity_name", "A")])]);
    mkDocument (Some [("0", mention [("entity_name", "B")])]);
    mkDocument (Some [("0", mention [("entity_name", "B")])]) ].

(** A known official, and two mentions without a name under different keys,
    the second without any field. *)
Definition sparse_docs : list Document :=
  [ mkDocument (Some [("0", mention [("entity_name", "Ana Rojas");
                                     ("entity_type", "PERSON");
                                     ("sentiment", "negative")]);
                      ("1", mention [("sentiment", "neutral")])]);
    mkDocument (Some [("7", mention [])]) ].

Definition row_Ana : EntityRecord :=
  mkEntityRecord "Ana Rojas" "PERSON" "negative" 1 "Defense Chief".
Definition row_Unknown : EntityRecord :=
  mkEntityRecord "Unknown" "Unknown" "neutral" 2 "Unknown Role".

(** The column order of [sort_values], as a decidable total relation. *)
Global Instance by_mention_count_desc_dec : RelDecision by_mention_count_desc.
Proof. intros a b. unfold by_mention_count_desc. apply _. Defined.

Global Instance by_mention_count_desc_total : Total by_mention_count_desc.
Proof. intros a b. unfold by_mention_count_desc. lia. Qed.

(** A sort that meets the contract of [sort_values], for the samples. *)
Definition sort_forward (rows : list EntityRecord) : list EntityRecord :=
  merge_sort by_mention_count_desc rows.

(** ** Loading the inputs *)

(** What [open(file_path)] and [json.load(f)] do for one path. An exception
    other than the two that the loop catches leaves the function. *)
Inductive JsonRead :=
| JsonNotFound
| JsonDecodeError (e : string)
| JsonLoaded (data : PyData)
| JsonOtherError (e : string).

(** What [open(file_path)] and [f.read()] do for one path. *)
Inductive TextRead :=
| TextNotFound
| TextContent (content : string)
| TextOtherError (e : string).

Global Instance TextRead_eq_dec : EqDecision TextRead.
Proof. solve_decision. Defined.

(** The [st.success], [st.error] and [st.warning] calls of the two loaders,
    each with the values its text is built from. *)
Inductive StCall :=
| SuccessSentimentLoaded (file_path : string)
| ErrorParsingJson (file_path e : string)
| ErrorSentimentNotFound
| SuccessDocumentSetIdLoaded (file_path : string)
| WarningDocumentSetIdNotFound.

(** A loader returns a value or lets an exception through, after the calls
    it has made. *)
Inductive loaded (A : Type) :=
| Returned (shown : list StCall) (value : A)
| Propagated (shown : list StCall) (e : string).
Arguments Returned {A} shown value.
Arguments Propagated {A} shown e.

Definition sentiment_paths : list string :=
  [ "panama_sentiment_results.json";
    "./panama_sentiment_results.json";
    "data/panama_sentiment_results.json" ].

Definition document_set_id_paths : list string :=
  [ "panama_document_set_id.txt";
    "./panama_document_set_id.txt";
    "data/panama_document_set_id.txt" ].

(** The loop [for file_path in possible_paths] of [load_sentiment_data] and
    what follows it. *)
Fixpoint load_sentiment_from (open_json : string → JsonRead)
    (possible_paths : list string) (shown : list StCall) : loaded PyData :=
  match possible_paths with
  | [] => Returned (shown ++ [ErrorSentimentNotFound]) PyNone
  | file_path :: rest =>
      match open_json file_path with
      | JsonLoaded data =>
          Returned (shown ++ [SuccessSentimentLoaded file_path]) data
      | JsonNotFound => load_sentiment_from open_json rest shown
      | JsonDecodeError e =>
          load_sentiment_from open_json rest
            (shown ++ [ErrorParsingJson file_path e])
      | JsonOtherError e => Propagated shown e
      end
  end.

Definition load_sentiment_data (open_json : string → JsonRead) : loaded PyData :=
  load_sentiment_from open_json sentiment_paths [].

(** [load_document_set_id]; [strip] is Python's [str.strip]. *)
Fixpoint load_document_set_id_from (open_text : string → TextRead)
    (strip : string → string)
    (possible_paths : list string) (shown : list StCall)
    : loaded (option string) :=
  match possible_paths with
  | [] => Returned (shown ++ [WarningDocumentSetIdNotFound]) None
  | file_path :: rest =>
      match open_text file_path with
      | TextContent content =>
          Returned (shown ++ [SuccessDocumentSetIdLoaded file_path])
            (Some (strip content))
      | TextNotFound => load_document_set_id_from open_text strip rest shown
      | TextOtherError e => Propagated shown e
      end
  end.

Definition load_document_set_id (open_text : string → TextRead)
    (strip : string → string) : loaded (option string) :=
  load_document_set_id_from open_text strip document_set_id_paths [].

(** ** The entities page *)

(** The four [st.metric] values. *)
Definition negative_count (rows : list EntityRecord) : nat :=
  length (filter (λ e, sentiment e = "negative") rows).
Definition positive_count (rows : list EntityRecord) : nat :=
  length (filter (λ e, sentiment e = "positive") rows).
Definition total_mentions (rows : list EntityRecord) : nat :=
  sum_list (mention_count <$> rows).

Record Metrics := mkMetrics {
  metric_total_entities : nat;
  metric_negative : nat;
  metric_positive : nat;
  metric_total_mentions : nat
}.

(** [df.head(10)] and [df['name'].tolist()] *)
Definition top_entities (df : list EntityRecord) : list EntityRecord :=
  take 10 df.
Definition selectbox_options (df : list EntityRecord) : list string :=
  name <$> df.

(** [if selected_entity:] and then
    [next((e for e in entities if e['name'] == selected_entity), None)]: the
    row whose details are written, if any. *)
Definition entity_info (rows : list EntityRecord) (selected_entity : string)
    : option EntityRecord :=
  if decide (selected_entity = "") then None
  else find_row selected_entity rows.

(** What [display_entities_page] arrives at, given what the two loaders
    returned: the early returns, or the values handed to the widgets. *)
Inductive EntitiesPage :=
| NoAnalysisData
| NoEntitiesFound (document_set_info : option string)
| EntitiesShown (document_set_info : option string) (metrics : Metrics)
    (df : list EntityRecord) (top : list EntityRecord) (options : list string).

Definition document_set_info (doc_set_id : option string) : option string :=
  match doc_set_id with
  | Some s => if decide (s = "") then None else Some s
  | None => None
  end.

Definition display_entities_page
    (sort_values : list EntityRecord → list EntityRecord)
    (sentiment_data : PyData) (doc_set_id : option string)
    : result EntitiesPage :=
  if negb (truthy sentiment_data) then Ok NoAnalysisData
  else
    match extract_entities_from_sentiment_data sentiment_data with
    | Raise e => Raise e
    | Ok [] => Ok (NoEntitiesFound (document_set_info doc_set_id))
    | Ok rows =>
        let df := create_entity_dataframe sort_values rows in
        Ok (EntitiesShown (document_set_info doc_set_id)
              (mkMetrics (length rows) (negative_count rows)
                 (positive_count rows) (total_mentions rows))
              df (top_entities df) (selectbox_options df))
    end.

(** ** The cards page *)

Definition entity_details : gmap string (gmap string string) :=
  <["José Raúl Mulino" :=
      <["department" := "Executive Branch"]>
      (<["responsibilities" := "Head of State, Chief Executive, Commander-in-Chief"]>
      (<["description" := "President of Panama with executive authority over government operations"]> ∅))]>
  (<["Ana Rojas" :=
      <["department" := "Ministry of Defense"]>
      (<["responsibilities" := "National Security, Military Operations, Defense Strategy"]>
      (<["description" := "Defense Chief responsible for national security and military affairs"]> ∅))]>
  (<["Carlos Méndez" :=
      <["department" := "Ministry of the Interior"]>
      (<["responsibilities" := "Domestic Affairs, Public Security, Law Enforcement"]>
      (<["description" := "Minister of the Interior overseeing domestic affairs and public security"]> ∅))]>
  (<["Marta Linares" :=
      <["department" := "Executive Branch"]>
      (<["responsibilities" := "Deputy Head of State, Executive Support"]>
      (<["description" := "Vice President of Panama supporting executive functions"]> ∅))]> ∅))).

Definition sentiment_emojis : gmap string string :=
  <["negative" := "🔴"]> (<["positive" := "🟢"]>
  (<["neutral" := "⚪"]> (<["mixed" := "🟡"]> ∅))).

Definition placeholder_portrait : string :=
  "data:image/svg+xml;base64,PHN2ZyB3aWR0aD0iMTUwIiBoZWlnaHQ9IjE4MCIgdmlld0JveD0iMCAwIDE1MCAxODAiIGZpbGw9Im5vbmUiIHhtbG5zPSJodHRwOi8vd3d3LnczLm9yZy8yMDAwL3N2ZyI+CjxyZWN0IHdpZHRoPSIxNTAiIGhlaWdodD0iMTgwIiBmaWxsPSIjYmRjM2M3Ii8+Cjx0ZXh0IHg9Ijc1IiB5PSI5MCIgZm9udC1mYW1pbHk9IkFyaWFsIiBmb250LXNpemU9IjE0IiBmaWxsPSIjNjc3Nzc3IiB0ZXh0LWFuY2hvcj0ibWlkZGxlIj5Qb3J0cmFpdDwvdGV4dD4KPC9zdmc+".

(** The values that the card template of one entity interpolates. The label
    [entity['sentiment'].title()] is built from [card_sentiment]. *)
Record Card := mkCard {
  card_index : nat;
  card_portrait_src : string;
  card_name : string;
  card_role : string;
  card_mention_count : nat;
  card_sentiment_emoji : string;
  card_department : string;
  card_responsibilities : string;
  card_sentiment : string;
  card_description : string
}.

(** One turn of [for i, entity in enumerate(entities)].
    [entity_base64_images_complete] is imported from a module of its own, or
    empty when the import fails. *)
Definition make_card (entity_base64_images_complete : gmap string string)
    (i : nat) (entity : EntityRecord) : Card :=
  let sentiment_emoji := default "⚪" (sentiment_emojis !! sentiment entity) in
  let entity_detail := default ∅ (entity_details !! name entity) in
  let portrait_src :=
    default placeholder_portrait (entity_base64_images_complete !! name entity) in
  mkCard i portrait_src (name entity) (government_role entity)
    (mention_count entity) sentiment_emoji
    (default "Unknown" (entity_detail !! "department"))
    (default "Unknown" (entity_detail !! "responsibilities"))
    (sentiment entity)
    (default "No description available" (entity_detail !! "description")).

Inductive CardsPage :=
| CardsNoData
| CardsNoEntities
| CardsShown (cards : list Card).

Definition display_baseball_cards_page
    (entity_base64_images_complete : gmap string string)
    (sentiment_data : PyData) : result CardsPage :=
  if negb (truthy sentiment_data) then Ok CardsNoData
  else
    match extract_entities_from_sentiment_data sentiment_data with
    | Raise e => Raise e
    | Ok [] => Ok CardsNoEntities
    | Ok rows => Ok (CardsShown (imap (make_card entity_base64_images_complete) rows))
    end.

(** The reads after which the loop of a loader goes on to the next path,
    and the [st.error] calls that such reads leave behind. *)
Definition json_skipped (r : JsonRead) : Prop :=
  match r with
  | JsonNotFound | JsonDecodeError _ => True
  | JsonLoaded _ | JsonOtherError _ => False
  end.

Global Instance json_skipped_dec r : Decision (json_skipped r).
Proof. destruct r; simpl; apply _. Defined.

Definition parse_errors (open_json : string → JsonRead)
    (paths : list string) : list StCall :=
  omap (λ file_path,
          match open_json file_path with
          | JsonDecodeError e => Some (ErrorParsingJson file_path e)
          | _ => None
          end) paths.

(** What [load_sentiment_from] does at the first path that ends the loop. *)
Definition load_outcome_at (open_json : string → JsonRead)
    (before : list string) (file_path : string) (shown : list StCall)
    : loaded PyData :=
  match open_json file_path with
  | JsonLoaded data =>
      Returned (shown ++ parse_errors open_json before
                ++ [SuccessSentimentLoaded file_path]) data
  | JsonOtherError e => Propagated (shown ++ parse_errors open_json before) e
  | _ => Returned [] PyNone
  end.

(** All mentions of the name [n] carry the sentiment [v]. *)
Definition unanimous (v : string) (ms : list EntityData) (n : string) : Prop :=
  Forall (λ m, mention_sentiment m = v) (mentions_of n ms).

Global Instance unanimous_dec v ms n : Decision (unanimous v ms n).
Proof. unfold unanimous. apply _. Defined.

(** Twelve entities with one mention each, and a second mention of the
    last; the table that [sort_forward] makes of them. *)
Definition crowd_docs : list Document :=
  ((λ n, mkDocument (Some [("0", mention [("entity_name", n)])])) <$>
     ["E01"; "E02"; "E03"; "E04"; "E05"; "E06";
      "E07"; "E08"; "E09"; "E10"; "E11"; "E12"])
  ++ [mkDocument (Some [("0", mention [("entity_name", "E12")])])].

Definition crowd_frame : list EntityRecord :=
  create_entity_dataframe sort_forward (aggregate crowd_docs).

Definition crowd_row (n : string) (count : nat) : EntityRecord :=
  mkEntityRecord n "Unknown" "neutral" count "Unknown Role".

(** The scenario with its two documents exchanged. *)
Definition scenario_docs_swapped : list Document :=
  [ mkDocument (Some [("0", mention [("entity_name", "A"); ("sentiment", "positive")]);
                      ("1", mention [("entity_name", "B"); ("sentiment", "neutral")])]);
    mkDocument (Some [("0", mention [("entity_name", "A"); ("sentiment", "negative")])]) ].

(** A file system for the samples: the working directory holds a
    malformed results file, seen under both spellings of its path. *)
Definition malformed_in_root (file_path : string) : JsonRead :=
  if decide (file_path = "data/panama_sentiment_results.json")
  then JsonLoaded (document_set scenario_docs [])
  else if decide (file_path = "panama_sentiment_results.json")
  then JsonDecodeError "Expecting value: line 1 column 1 (char 0)"
  else if decide (file_path = "./panama_sentiment_results.json")
  then JsonDecodeError "Expecting value: line 1 column 1 (char 0)"
  else JsonNotFound.

(** Only the [data/] copy of the identifier exists. *)
Definition id_in_data (file_path : string) : TextRead :=
  if decide (file_path = "data/panama_document_set_id.txt")
  then TextContent "ds-1"
  else TextNotFound.

(** A file system for the samples: only the [data/] copy of the results
    exists, and holds the two-document scenario. *)
Definition data_copy_only (file_path : string) : JsonRead :=
  if decide (file_path = "data/panama_sentiment_results.json")
  then JsonLoaded (document_set scenario_docs [])
  else JsonNotFound.

(** ** The loop body, row by row *)

Lemma process_mention_nil m : process_mention [] m = [new_row m].
Proof. reflexivity. Qed.

Lemma process_mention_cons e r m :
  process_mention (e :: r) m =
    if decide (name e = mention_name m) then merge_row e m :: r
    else e :: process_mention r m.
Proof.
  unfold process_mention. simpl.
  destruct (decide (name e = mention_name m)) as [Heq|Hne].
  - unfold merge_row. simpl. by case_decide.
  - destruct (list_find _ r) as [[i e']|]; reflexivity.
Qed.

Lemma find_row_nil n : find_row n [] = None.
Proof. reflexivity. Qed.

Lemma find_row_cons n e r :
  find_row n (e :: r) = if decide (name e = n) then Some e else find_row n r.
Proof.
  unfold find_row. simpl. case_decide; [reflexivity|].
  destruct (list_find _ r) as [[i e']|]; reflexivity.
Qed.

Lemma find_row_NoDup roster e :
  NoDup (name <$> roster) → e ∈ roster → find_row (name e) roster = Some e.
Proof.
  induction roster as [|e0 r IH]; [by intros _ ?%elem_of_nil|].
  rewrite fmap_cons, NoDup_cons, find_row_cons. intros [Hnot Hnd] Hin.
  apply elem_of_cons in Hin as [->|Hin]; [by rewrite decide_True|].
  rewrite decide_False; [by apply IH|].
  intros Heq. apply Hnot. rewrite Heq. by apply list_elem_of_fmap_2.
Qed.

(** The roster refines the name-keyed index. *)
Lemma find_row_process_mention n roster m :
  find_row n (process_mention roster m) = entity_step n (find_row n roster) m.
Proof.
  unfold entity_step. induction roster as [|e r IH].
  - rewrite process_mention_nil, find_row_cons, find_row_nil. simpl.
    by repeat case_decide.
  - rewrite process_mention_cons, (find_row_cons n e r).
    destruct (decide (name e = mention_name m)) as [Hem|Hem].
    + rewrite find_row_cons. simpl. repeat case_decide; congruence.
    + rewrite find_row_cons, IH. repeat case_decide; congruence.
Qed.

Lemma names_process_mention roster m :
  name <$> process_mention roster m =
    if decide (mention_name m ∈ (name <$> roster)) then name <$> roster
    else (name <$> roster) ++ [mention_name m].
Proof.
  induction roster as [|e r IH].
  - rewrite process_mention_nil. case_decide as Hin; [|done].
    by apply elem_of_nil in Hin.
  - rewrite process_mention_cons.
    destruct (decide (mention_name m ∈ name <$> (e :: r))) as [Hin|Hin];
      destruct (decide (name e = mention_name m)) as [Hem|Hem].
    + reflexivity.
    + rewrite !fmap_cons, IH. rewrite fmap_cons in Hin.
      apply elem_of_cons in Hin as [Hin|Hin]; [congruence|].
      by rewrite decide_True.
    + destruct Hin. rewrite fmap_cons, Hem. left.
    + rewrite !fmap_cons, IH. rewrite fmap_cons in Hin.
      apply not_elem_of_cons in Hin as [_ Hin]. by rewrite decide_False.
Qed.

(** ** The two loops as one pass over the mentions *)

Lemma process_document_mentions roster doc :
  process_document roster doc =
    fold_left process_mention (map snd (doc_entities doc)) roster.
Proof.
  unfold process_document. generalize (doc_entities doc) as items.
  intros items. revert roster.
  induction items as [|item items IH]; intros roster; [done|]. simpl. apply IH.
Qed.

Lemma process_documents_mentions docs roster :
  fold_left process_document docs roster =
    fold_left process_mention (all_mentions docs) roster.
Proof.
  revert roster. induction docs as [|doc docs IH]; intros roster; [done|].
  unfold all_mentions. simpl. rewrite fold_left_app, IH.
  by rewrite process_document_mentions.
Qed.

Lemma aggregate_mentions docs :
  aggregate docs = fold_left process_mention (all_mentions docs) [].
Proof. apply process_documents_mentions. Qed.

Lemma extract_document_set docs others :
  extract_entities_from_sentiment_data (document_set docs others)
  = Ok (aggregate docs).
Proof. reflexivity. Qed.

(** Opens a statement of the form [∃ out, extract ... = Ok out ∧ _] with
    the roster that the loops build. *)
Ltac returns_roster docs :=
  exists (aggregate docs); split; [apply extract_document_set|].

(** ** Names: distinct, in the order of first occurrence *)

Lemma distinct_in_order_ext seen1 seen2 ns :
  (∀ x, x ∈ seen1 ↔ x ∈ seen2) →
  distinct_in_order seen1 ns = distinct_in_order seen2 ns.
Proof.
  revert seen1 seen2. induction ns as [|n ns IH]; intros s1 s2 Hs; [done|].
  simpl. destruct (decide (n ∈ s1)) as [H1|H1], (decide (n ∈ s2)) as [H2|H2].
  - by apply IH.
  - destruct H2. by apply Hs.
  - destruct H1. by apply Hs.
  - f_equal. apply IH. intros x. rewrite !elem_of_cons, Hs. done.
Qed.

Lemma elem_of_distinct_in_order seen ns x :
  x ∈ distinct_in_order seen ns ↔ x ∈ ns ∧ x ∉ seen.
Proof.
  revert seen. induction ns as [|n ns IH]; intros seen; simpl.
  - rewrite !elem_of_nil. tauto.
  - destruct (decide (n ∈ seen)) as [Hn|Hn].
    + rewrite IH, elem_of_cons. split; [tauto|].
      intros [[->|?] ?]; tauto.
    + rewrite !elem_of_cons, IH, not_elem_of_cons.
      destruct (decide (x = n)) as [->|Hx]; tauto.
Qed.

Lemma NoDup_distinct_in_order seen ns : NoDup (distinct_in_order seen ns).
Proof.
  revert seen. induction ns as [|n ns IH]; intros seen; simpl.
  - constructor.
  - destruct (decide (n ∈ seen)); [apply IH|]. constructor; [|apply IH].
    rewrite elem_of_distinct_in_order, not_elem_of_cons. tauto.
Qed.

Lemma names_fold ms roster :
  name <$> fold_left process_mention ms roster =
    (name <$> roster) ++ distinct_in_order (name <$> roster) (mention_name <$> ms).
Proof.
  revert roster. induction ms as [|m ms IH]; intros roster.
  - simpl. by rewrite app_nil_r.
  - simpl. rewrite IH, names_process_mention.
    destruct (decide (mention_name m ∈ name <$> roster)) as [Hin|Hin]; [done|].
    rewrite <-app_assoc. simpl. do 2 f_equal.
    apply distinct_in_order_ext. intros x.
    rewrite elem_of_app, !elem_of_cons, elem_of_nil. tauto.
Qed.

Lemma names_aggregate docs :
  name <$> aggregate docs =
    distinct_in_order [] (mention_name <$> all_mentions docs).
Proof. rewrite aggregate_mentions. apply names_fold. Qed.

Lemma NoDup_names_aggregate docs : NoDup (name <$> aggregate docs).
Proof. rewrite names_aggregate. apply NoDup_distinct_in_order. Qed.

Lemma elem_of_names_aggregate docs n :
  n ∈ (name <$> aggregate docs) ↔ n ∈ (mention_name <$> all_mentions docs).
Proof.
  rewrite names_aggregate, elem_of_distinct_in_order.
  split; [tauto|]. intros H. split; [done|]. apply not_elem_of_nil.
Qed.

(** ** One entity at a time *)

Lemma find_row_fold n ms roster :
  find_row n (fold_left process_mention ms roster) =
    fold_left (entity_step n) ms (find_row n roster).
Proof.
  revert roster. induction ms as [|m ms IH]; intros roster; [done|].
  simpl. by rewrite IH, find_row_process_mention.
Qed.

Lemma entity_fold_Some n ms e :
  fold_left (entity_step n) ms (Some e) =
    Some (fold_left merge_row (mentions_of n ms) e).
Proof.
  revert e. induction ms as [|m ms IH]; intros e; [done|].
  unfold mentions_of. rewrite filter_cons. simpl. unfold entity_step at 2.
  destruct (decide (mention_name m = n)); simpl; apply IH.
Qed.

Lemma entity_fold_None n ms :
  fold_left (entity_step n) ms None =
    match mentions_of n ms with
    | [] => None
    | m0 :: rest => Some (fold_left merge_row rest (new_row m0))
    end.
Proof.
  induction ms as [|m ms IH]; [done|].
  unfold mentions_of. rewrite filter_cons. simpl. unfold entity_step at 2.
  destruct (decide (mention_name m = n)); simpl; [apply entity_fold_Some|apply IH].
Qed.

(** Every row of the result is its name's first mention, updated by the
    later ones in turn. *)
Lemma aggregate_row docs e :
  e ∈ aggregate docs →
  ∃ m0 rest, mentions_of (name e) (all_mentions docs) = m0 :: rest
             ∧ e = fold_left merge_row rest (new_row m0).
Proof.
  intros Hin.
  pose proof (find_row_NoDup _ _ (NoDup_names_aggregate docs) Hin) as Hfind.
  rewrite aggregate_mentions, find_row_fold, find_row_nil, entity_fold_None in Hfind.
  destruct (mentions_of (name e) (all_mentions docs)) as [|m0 rest]; [done|].
  exists m0, rest. split; [done|]. congruence.
Qed.

(** Every mention has a row of its name. *)
Lemma row_of_mention docs m :
  m ∈ all_mentions docs → ∃ e, e ∈ aggregate docs ∧ name e = mention_name m.
Proof.
  intros Hm.
  assert (mention_name m ∈ (name <$> aggregate docs)) as Hin.
  { apply elem_of_names_aggregate. by apply list_elem_of_fmap_2. }
  apply list_elem_of_fmap in Hin as (e & He & Hin). by exists e.
Qed.

Lemma merge_fold_frame ms e :
  name (fold_left merge_row ms e) = name e
  ∧ type (fold_left merge_row ms e) = type e
  ∧ government_role (fold_left merge_row ms e) = government_role e
  ∧ mention_count (fold_left merge_row ms e) = mention_count e + length ms.
Proof.
  revert e. induction ms as [|m ms IH]; intros e; simpl.
  - split_and!; [done..|lia].
  - destruct (IH (merge_row e m)) as (-> & -> & -> & ->). simpl.
    split_and!; [done..|lia].
Qed.

Lemma merge_row_mixed e m :
  sentiment e = "mixed" → sentiment (merge_row e m) = "mixed".
Proof. intros He. simpl. by case_decide. Qed.

Lemma merge_fold_mixed ms e :
  sentiment e = "mixed" → sentiment (fold_left merge_row ms e) = "mixed".
Proof.
  revert e. induction ms as [|m ms IH]; intros e He; [done|].
  simpl. apply IH. by apply merge_row_mixed.
Qed.

Lemma merge_fold_agree ms e :
  (∀ m, m ∈ ms → mention_sentiment m = sentiment e) →
  sentiment (fold_left merge_row ms e) = sentiment e.
Proof.
  revert e. induction ms as [|m ms IH]; intros e Hall; [done|].
  assert (sentiment (merge_row e m) = sentiment e) as Hstep.
  { simpl. rewrite decide_False; [done|]. intros Hne. apply Hne, Hall. left. }
  simpl. rewrite IH, Hstep; [done|].
  intros m' Hm'. rewrite Hstep. apply Hall. by right.
Qed.

Lemma merge_fold_differ ms e m :
  m ∈ ms → mention_sentiment m ≠ sentiment e →
  sentiment (fold_left merge_row ms e) = "mixed".
Proof.
  revert e. induction ms as [|m' ms IH]; intros e Hin Hne.
  - by apply elem_of_nil in Hin.
  - simpl. destruct (decide (mention_sentiment m' ≠ sentiment e)) as [Hd|Hd].
    + apply merge_fold_mixed. simpl. by rewrite decide_True.
    + apply elem_of_cons in Hin as [->|Hin]; [done|].
      apply IH; [done|]. simpl. by rewrite decide_False.
Qed.

(** ** The roster of a document set *)

Example scenario :
  extract_entities_from_sentiment_data (document_set scenario_docs [])
  = Ok [row_A; row_B].
Proof. vm_compute. reflexivity. Qed.

Example role_of_president :
  entity_roles !! "José Raúl Mulino" = Some "President of Panama".
Proof. vm_compute. reflexivity. Qed.

(** C1. For every document set the aggregator returns a roster in which no
    name occurs twice, whose names are exactly the resolved [entity_name]
    values of the mentions (a missing name resolved to ["Unknown"]), and
    whose length is the number of distinct such values. *)
Theorem C1_one_record_per_distinct_name docs others :
  ∃ out,
    extract_entities_from_sentiment_data (document_set docs others) = Ok out
    ∧ NoDup (name <$> out)
    ∧ (∀ n, n ∈ (name <$> out) ↔ n ∈ (mention_name <$> all_mentions docs))
    ∧ length out
      = size (list_to_set (mention_name <$> all_mentions docs) : gset string).
Proof.
  exists (aggregate docs). split_and!.
  - apply extract_document_set.
  - apply NoDup_names_aggregate.
  - apply elem_of_names_aggregate.
  - rewrite <-(length_fmap name).
    rewrite <-(size_list_to_set (C:=gset string) (name <$> aggregate docs))
      by apply NoDup_names_aggregate.
    f_equal. apply set_eq. intros n.
    rewrite !elem_of_list_to_set. apply elem_of_names_aggregate.
Qed.

Example scenario_distinct_names :
  size (list_to_set (mention_name <$> all_mentions scenario_docs) : gset string) = 2.
Proof. vm_compute. reflexivity. Qed.

Lemma count_of_row docs e :
  e ∈ aggregate docs →
  mention_count e = length (mentions_of (name e) (all_mentions docs)).
Proof.
  intros (m0 & rest & Hms & He)%aggregate_row. rewrite Hms.
  destruct (merge_fold_frame rest (new_row m0)) as (_ & _ & _ & Hcount).
  rewrite He, Hcount. simpl. lia.
Qed.

(** C2. Every mention has a row of its resolved name in the result, and
    that row's [mention_count] is the number of mentions, over all
    documents, with that resolved name; no row has any other count. *)
Theorem C2_mention_count_is_total docs others :
  ∃ out,
    extract_entities_from_sentiment_data (document_set docs others) = Ok out
    ∧ (∀ m, m ∈ all_mentions docs →
         ∃ e, e ∈ out ∧ name e = mention_name m
              ∧ mention_count e
                = length (mentions_of (mention_name m) (all_mentions docs)))
    ∧ (∀ e, e ∈ out →
         mention_count e = length (mentions_of (name e) (all_mentions docs))).
Proof.
  returns_roster docs. split; [|apply count_of_row].
  intros m (e & He & Hname)%row_of_mention. exists e.
  split_and!; [done..|]. rewrite <-Hname. by apply count_of_row.
Qed.

(** In the scenario the result holds a row named [A] with count two. *)
Lemma C2_mention_count_witness :
  ∃ out,
    extract_entities_from_sentiment_data (document_set scenario_docs []) = Ok out
    ∧ ∃ e, e ∈ out ∧ name e = "A" ∧ mention_count e = 2.
Proof.
  destruct (C2_mention_count_is_total scenario_docs []) as (out & Hout & Hrows & _).
  exists out. split; [exact Hout|].
  destruct (Hrows (mention [("entity_name", "A"); ("sentiment", "positive")]))
    as (e & He & Hname & Hcount); [right; left|].
  exists e. split_and!; [exact He|exact Hname|exact Hcount].
Defined.

Lemma sentiment_of_row docs e :
  e ∈ aggregate docs →
  (∀ v, (∀ m, m ∈ all_mentions docs → mention_name m = name e →
              mention_sentiment m = v) →
        sentiment e = v)
  ∧ (∀ m1 m2, m1 ∈ all_mentions docs → m2 ∈ all_mentions docs →
        mention_name m1 = name e → mention_name m2 = name e →
        mention_sentiment m1 ≠ mention_sentiment m2 →
        sentiment e = "mixed").
Proof.
  intros (m0 & rest & Hms & He)%aggregate_row.
  assert (∀ m, m ∈ all_mentions docs → mention_name m = name e →
               m = m0 ∨ m ∈ rest) as Hsplit.
  { intros m Hm Hn. apply elem_of_cons. rewrite <-Hms.
    apply list_elem_of_filter. done. }
  assert (∀ m, m = m0 ∨ m ∈ rest →
               m ∈ all_mentions docs ∧ mention_name m = name e) as Hback.
  { intros m Hm. apply elem_of_cons in Hm. rewrite <-Hms in Hm.
    apply list_elem_of_filter in Hm. tauto. }
  split.
  - intros v Hall.
    assert (mention_sentiment m0 = v) as H0.
    { destruct (Hback m0) as [? ?]; [by left|]. by apply Hall. }
    rewrite He, merge_fold_agree; [done|].
    intros m Hm. simpl. rewrite H0.
    destruct (Hback m) as [? ?]; [by right|]. by apply Hall.
  - intros m1 m2 Hm1 Hm2 Hn1 Hn2 Hne. rewrite He.
    destruct (decide (mention_sentiment m1 = mention_sentiment m0)) as [H1|H1].
    + destruct (Hsplit m2 Hm2 Hn2) as [->|Hr]; [done|].
      apply (merge_fold_differ _ _ m2); [done|]. simpl. congruence.
    + destruct (Hsplit m1 Hm1 Hn1) as [->|Hr]; [done|].
      by apply (merge_fold_differ _ _ m1).
Qed.

(** C3. Every mention has a row of its resolved name in the result. When
    all mentions of that name carry one sentiment (a missing sentiment read
    as ["neutral"]), the row has that sentiment; when two mentions of that
    name differ in sentiment, the row has ["mixed"]. The same holds of
    every row of the result. *)
Theorem C3_sentiment_shared_or_mixed docs others :
  ∃ out,
    extract_entities_from_sentiment_data (document_set docs others) = Ok out
    ∧ (∀ m, m ∈ all_mentions docs →
         ∃ e, e ∈ out ∧ name e = mention_name m
              ∧ (∀ v, (∀ m', m' ∈ all_mentions docs →
                             mention_name m' = mention_name m →
                             mention_sentiment m' = v) →
                      sentiment e = v)
              ∧ (∀ m1 m2, m1 ∈ all_mentions docs → m2 ∈ all_mentions docs →
                   mention_name m1 = mention_name m →
                   mention_name m2 = mention_name m →
                   mention_sentiment m1 ≠ mention_sentiment m2 →
                   sentiment e = "mixed"))
    ∧ (∀ e, e ∈ out →
         (∀ v, (∀ m, m ∈ all_mentions docs → mention_name m = name e →
                     mention_sentiment m = v) →
               sentiment e = v)
         ∧ (∀ m1 m2, m1 ∈ all_mentions docs → m2 ∈ all_mentions docs →
               mention_name m1 = name e → mention_name m2 = name e →
               mention_sentiment m1 ≠ mention_sentiment m2 →
               sentiment e = "mixed")).
Proof.
  returns_roster docs. split; [|apply sentiment_of_row].
  intros m (e & He & Hname)%row_of_mention. exists e.
  split_and!; [done..| |]; rewrite <-Hname; by apply sentiment_of_row.
Qed.

(** In the scenario the result holds a row named [A] with sentiment
    ["mixed"] (negative, then positive) and a row named [B] with its one
    mention's ["neutral"]. *)
Lemma C3_sentiment_witness :
  ∃ out,
    extract_entities_from_sentiment_data (document_set scenario_docs []) = Ok out
    ∧ (∃ e, e ∈ out ∧ name e = "A" ∧ sentiment e = "mixed")
    ∧ (∃ e, e ∈ out ∧ name e = "B" ∧ sentiment e = "neutral").
Proof.
  destruct (C3_sentiment_shared_or_mixed scenario_docs []) as (out & Hout & Hrows & _).
  exists out. split; [exact Hout|]. split.
  - destruct (Hrows (mention [("entity_name", "A"); ("sentiment", "negative")]))
      as (e & He & Hname & _ & Hmixed); [left|].
    exists e. split_and!; [exact He|exact Hname|].
    apply (Hmixed (mention [("entity_name", "A"); ("sentiment", "negative")])
                  (mention [("entity_name", "A"); ("sentiment", "positive")]));
      [left|right; left|reflexivity|reflexivity|].
    vm_compute. discriminate.
  - destruct (Hrows (mention [("entity_name", "B"); ("sentiment", "neutral")]))
      as (e & He & Hname & Hshared & _); [right; right; left|].
    exists e. split_and!; [exact He|exact Hname|].
    apply Hshared. intros m Hm Hn.
    unfold scenario_docs, all_mentions in Hm. simpl in Hm.
    rewrite !elem_of_cons, elem_of_nil in Hm.
    destruct Hm as [->|[->|[->|[]]]]; [discriminate Hn..|reflexivity].
Defined.

Lemma role_of_row docs e :
  e ∈ aggregate docs →
  government_role e = default "Unknown Role" (entity_roles !! name e).
Proof.
  intros (m0 & rest & Hms & He)%aggregate_row.
  destruct (merge_fold_frame rest (new_row m0)) as (Hname & _ & Hrole & _).
  rewrite <-He in Hname, Hrole. simpl in Hname, Hrole.
  by rewrite Hrole, Hname.
Qed.

(** C7. Every mention has a row of its resolved name in the result, and
    the role of that row, as of every row, is the role table's entry for
    the name when the table has one, and ["Unknown Role"] otherwise. *)
Theorem C7_role_from_table docs others :
  ∃ out,
    extract_entities_from_sentiment_data (document_set docs others) = Ok out
    ∧ (∀ m, m ∈ all_mentions docs →
         ∃ e, e ∈ out ∧ name e = mention_name m
              ∧ (∀ r, entity_roles !! mention_name m = Some r →
                      government_role e = r)
              ∧ (entity_roles !! mention_name m = None →
                 government_role e = "Unknown Role"))
    ∧ (∀ e, e ∈ out →
         (∀ r, entity_roles !! name e = Some r → government_role e = r)
         ∧ (entity_roles !! name e = None → government_role e = "Unknown Role")).
Proof.
  returns_roster docs.
  assert (∀ e, e ∈ aggregate docs →
            (∀ r, entity_roles !! name e = Some r → government_role e = r)
            ∧ (entity_roles !! name e = None → government_role e = "Unknown Role"))
    as Hrows.
  { intros e ->%role_of_row. split; [intros r ->|intros ->]; reflexivity. }
  split; [|exact Hrows].
  intros m (e & He & Hname)%row_of_mention. exists e.
  split_and!; [done..| |]; rewrite <-Hname; by apply Hrows.
Qed.

(** For a mention of Ana Rojas and a mention without a name, the result
    holds a row with the table's role and a row with ["Unknown Role"]. *)
Lemma C7_role_witness :
  ∃ out,
    extract_entities_from_sentiment_data (document_set sparse_docs []) = Ok out
    ∧ (∃ e, e ∈ out ∧ name e = "Ana Rojas" ∧ government_role e = "Defense Chief")
    ∧ (∃ e, e ∈ out ∧ name e = "Unknown" ∧ government_role e = "Unknown Role").
Proof.
  destruct (C7_role_from_table sparse_docs []) as (out & Hout & Hrows & _).
  exists out. split; [exact Hout|]. split.
  - destruct (Hrows (mention [("entity_name", "Ana Rojas");
                              ("entity_type", "PERSON");
                              ("sentiment", "negative")]))
      as (e & He & Hname & Hhit & _); [left|].
    exists e. split_and!; [exact He|exact Hname|].
    apply Hhit. vm_compute. reflexivity.
  - destruct (Hrows (mention [])) as (e & He & Hname & _ & Hmiss);
      [right; right; left|].
    exists e. split_and!; [exact He|exact Hname|].
    apply Hmiss. vm_compute. reflexivity.
Defined.

(** ** Order of the roster *)

(** C4 does not hold of what the aggregator returns: the rows come in the
    order of first encounter, here [A] (one mention) before [B] (two
    mentions), which is not non-increasing in [mention_count]. *)
Lemma C4_counterexample :
  extract_entities_from_sentiment_data (document_set late_favourite_docs [])
  = Ok [ mkEntityRecord "A" "Unknown" "neutral" 1 "Unknown Role";
         mkEntityRecord "B" "Unknown" "neutral" 2 "Unknown Role" ]
  ∧ ¬ Sorted by_mention_count_desc
        [ mkEntityRecord "A" "Unknown" "neutral" 1 "Unknown Role";
          mkEntityRecord "B" "Unknown" "neutral" 2 "Unknown Role" ].
Proof.
  split; [vm_compute; reflexivity|].
  intros Hs. apply Sorted_inv in Hs as [_ Hhd]. apply HdRel_inv in Hhd.
  unfold by_mention_count_desc in Hhd. simpl in Hhd. lia.
Qed.

Lemma list_find_eq_cons_ne (n x : string) (ns : list string) p :
  n ≠ x →
  list_find (λ z, z = x) ns = Some (p, x) →
  list_find (λ z, z = x) (n :: ns) = Some (S p, x).
Proof. intros Hne Hfind. simpl. rewrite decide_False by done. by rewrite Hfind. Qed.

Lemma list_find_eq_elem_of (x : string) (ns : list string) :
  x ∈ ns → ∃ p, list_find (λ z, z = x) ns = Some (p, x).
Proof.
  intros Hin. destruct (list_find_elem_of (λ z, z = x) ns x Hin eq_refl)
    as [[p y] Hfind].
  exists p. pose proof Hfind as (_ & -> & _)%list_find_Some. done.
Qed.

(** In [distinct_in_order], a name comes before another exactly as their
    first occurrences do in the sequence. *)
Lemma distinct_in_order_positions seen ns i j x y :
  distinct_in_order seen ns !! i = Some x →
  distinct_in_order seen ns !! j = Some y →
  i < j →
  ∃ pi pj, list_find (λ z, z = x) ns = Some (pi, x)
           ∧ list_find (λ z, z = y) ns = Some (pj, y)
           ∧ pi < pj.
Proof.
  revert seen i j. induction ns as [|n ns IH]; intros seen i j Hi Hj Hlt;
    [done|].
  simpl in Hi, Hj. destruct (decide (n ∈ seen)) as [Hn|Hn].
  - destruct (IH _ _ _ Hi Hj Hlt) as (pi & pj & Hpi & Hpj & Hpp).
    apply list_elem_of_lookup_2, elem_of_distinct_in_order in Hi as [_ Hx].
    apply list_elem_of_lookup_2, elem_of_distinct_in_order in Hj as [_ Hy].
    exists (S pi), (S pj). split_and!; [| |lia];
      apply list_find_eq_cons_ne; congruence.
  - destruct j as [|j]; [lia|]. simpl in Hj.
    pose proof Hj as Hy.
    apply list_elem_of_lookup_2, elem_of_distinct_in_order in Hy as [Hy Hyn].
    apply not_elem_of_cons in Hyn as [Hyn _].
    destruct i as [|i]; simpl in Hi.
    + injection Hi as ->.
      destruct (list_find_eq_elem_of y ns Hy) as [pj Hpj].
      exists 0, (S pj). split_and!; [|by apply list_find_eq_cons_ne|lia].
      simpl. by rewrite decide_True.
    + destruct (IH _ _ _ Hi Hj) as (pi & pj & Hpi & Hpj & Hpp); [lia|].
      apply list_elem_of_lookup_2, elem_of_distinct_in_order in Hi as [_ Hx].
      apply not_elem_of_cons in Hx as [Hx _].
      exists (S pi), (S pj). split_and!; [| |lia];
        apply list_find_eq_cons_ne; congruence.
Qed.

(** C4, amended. The aggregator returns the rows in the order in which
    their names are first encountered, whatever their counts: the names of
    the result are the distinct resolved names of the mentions, each at its
    first occurrence, and of two rows the earlier one is the one whose name
    is mentioned first. *)
Theorem C4_first_seen_order docs others :
  ∃ out,
    extract_entities_from_sentiment_data (document_set docs others) = Ok out
    ∧ name <$> out = distinct_in_order [] (mention_name <$> all_mentions docs)
    ∧ ∀ i j ei ej, out !! i = Some ei → out !! j = Some ej → i < j →
        ∃ pi pj,
          list_find (λ n, n = name ei) (mention_name <$> all_mentions docs)
          = Some (pi, name ei)
          ∧ list_find (λ n, n = name ej) (mention_name <$> all_mentions docs)
            = Some (pj, name ej)
          ∧ pi < pj.
Proof.
  returns_roster docs. split; [apply names_aggregate|].
  intros i j ei ej Hi Hj Hlt.
  apply (distinct_in_order_positions [] _ i j); [| |done];
    rewrite <-names_aggregate, list_lookup_fmap.
  - by rewrite Hi.
  - by rewrite Hj.
Qed.

(** With one mention of [A] and then two of [B], the result has [A]
    before [B]. *)
Lemma C4_first_seen_order_witness :
  ∃ out,
    extract_entities_from_sentiment_data (document_set late_favourite_docs [])
    = Ok out
    ∧ name <$> out = ["A"; "B"].
Proof.
  destruct (C4_first_seen_order late_favourite_docs []) as (out & Hout & Hnames & _).
  exists out. split; [exact Hout|]. exact Hnames.
Defined.

Lemma sort_forward_contract :
  (∀ rows, sort_forward rows ≡ₚ rows)
  ∧ (∀ rows, Sorted by_mention_count_desc (sort_forward rows)).
Proof.
  split; intros rows.
  - apply merge_sort_Permutation.
  - apply (Sorted_merge_sort by_mention_count_desc).
Qed.

Example late_favourite_names :
  distinct_in_order [] (mention_name <$> all_mentions late_favourite_docs)
  = ["A"; "B"].
Proof. vm_compute. reflexivity. Qed.

(** ** Rows already in the roster *)

Lemma process_mention_found roster m i e :
  list_find (λ r, name r = mention_name m) roster = Some (i, e) →
  process_mention roster m = <[i := merge_row e m]> roster.
Proof.
  intros Hfind. unfold process_mention. rewrite Hfind.
  unfold merge_row. simpl. by case_decide.
Qed.

Lemma process_mention_lookup roster m i e :
  roster !! i = Some e →
  ∃ e', process_mention roster m !! i = Some e' ∧ (e' = e ∨ e' = merge_row e m).
Proof.
  revert i. induction roster as [|e0 r IH]; intros i Hi; [done|].
  rewrite process_mention_cons.
  destruct (decide (name e0 = mention_name m)) as [Hem|Hem], i as [|i];
    simpl in *.
  - injection Hi as ->. eauto.
  - eauto.
  - injection Hi as ->. eauto.
  - by apply IH.
Qed.

Lemma fold_mentions_mixed ms roster i e :
  roster !! i = Some e → sentiment e = "mixed" →
  ∃ e', fold_left process_mention ms roster !! i = Some e'
        ∧ name e' = name e ∧ sentiment e' = "mixed".
Proof.
  revert roster e. induction ms as [|m ms IH]; intros roster e Hi Hmixed.
  - exists e. done.
  - destruct (process_mention_lookup roster m i e Hi) as (e1 & H1 & Hcase).
    assert (name e1 = name e ∧ sentiment e1 = "mixed") as [Hn Hs].
    { destruct Hcase as [->| ->]; [done|].
      split; [done|]. by apply merge_row_mixed. }
    destruct (IH _ _ H1 Hs) as (e' & Hlook & Hn' & Hs').
    exists e'. split_and!; [done|congruence|done].
Qed.

(** C5. Within a pass, a row whose sentiment is ["mixed"] keeps its name and
    stays ["mixed"] whatever mentions, or documents, are processed next. *)
Theorem C5_mixed_never_reverts
    (roster : list EntityRecord) (ms : list EntityData) (docs : list Document)
    (i : nat) (e : EntityRecord) :
  roster !! i = Some e → sentiment e = "mixed" →
  (∃ e', fold_left process_mention ms roster !! i = Some e'
         ∧ name e' = name e ∧ sentiment e' = "mixed")
  ∧ (∃ e', fold_left process_document docs roster !! i = Some e'
           ∧ name e' = name e ∧ sentiment e' = "mixed").
Proof.
  intros Hi Hmixed. split.
  - by apply fold_mentions_mixed.
  - rewrite process_documents_mentions. by apply fold_mentions_mixed.
Qed.

(** After [negative] then [positive] the row of [A] is ["mixed"]; a third
    mention with the first value, [negative], leaves it ["mixed"]. *)
Lemma C5_mixed_witness :
  aggregate scenario_docs !! 0 = Some row_A
  ∧ (∃ e', fold_left process_mention
             [mention [("entity_name", "A"); ("sentiment", "negative")]]
             (aggregate scenario_docs) !! 0 = Some e'
           ∧ name e' = "A" ∧ sentiment e' = "mixed")
  ∧ (∃ e', fold_left process_document scenario_docs (aggregate scenario_docs) !! 0
           = Some e'
           ∧ name e' = "A" ∧ sentiment e' = "mixed").
Proof.
  split; [vm_compute; reflexivity|].
  apply (C5_mixed_never_reverts (aggregate scenario_docs)
           [mention [("entity_name", "A"); ("sentiment", "negative")]]
           scenario_docs 0 row_A).
  - vm_compute. reflexivity.
  - reflexivity.
Defined.

Example negative_positive_negative :
  aggregate
    [ mkDocument (Some [("0", mention [("entity_name", "A"); ("sentiment", "negative")])]);
      mkDocument (Some [("0", mention [("entity_name", "A"); ("sentiment", "positive")])]);
      mkDocument (Some [("0", mention [("entity_name", "A"); ("sentiment", "negative")])]) ]
  = [mkEntityRecord "A" "Unknown" "mixed" 3 "Unknown Role"].
Proof. vm_compute. reflexivity. Qed.

Lemma first_mention_of_row docs e :
  e ∈ aggregate docs →
  ∃ m, first_mention (name e) (all_mentions docs) = Some m
       ∧ name e = mention_name m
       ∧ type e = mention_type m
       ∧ government_role e = default "Unknown Role" (entity_roles !! mention_name m).
Proof.
  intros (m0 & rest & Hms & He)%aggregate_row. exists m0.
  destruct (merge_fold_frame rest (new_row m0)) as (Hname & Htype & Hrole & _).
  rewrite <-He in Hname, Htype, Hrole.
  unfold first_mention. rewrite Hms. done.
Qed.

(** C9. A mention whose name already has a row changes that row only: its
    [mention_count] grows by one, its sentiment stays or becomes ["mixed"],
    and its name, type and role are kept; no row is added. Hence, in the
    result, every row has the name, type and role that its name's first
    mention gave it. *)
Theorem C9_existing_row_keeps_name_type_role docs others :
  (∀ roster m i e,
      list_find (λ r, name r = mention_name m) roster = Some (i, e) →
      ∃ e', process_mention roster m = <[i := e']> roster
            ∧ name e' = name e ∧ type e' = type e
            ∧ government_role e' = government_role e
            ∧ mention_count e' = mention_count e + 1
            ∧ (sentiment e' = sentiment e ∨ sentiment e' = "mixed"))
  ∧ ∃ out,
      extract_entities_from_sentiment_data (document_set docs others) = Ok out
      ∧ ∀ e, e ∈ out →
          ∃ m, first_mention (name e) (all_mentions docs) = Some m
               ∧ name e = mention_name m
               ∧ type e = mention_type m
               ∧ government_role e
                 = default "Unknown Role" (entity_roles !! mention_name m).
Proof.
  split.
  - intros roster m i e Hfind. exists (merge_row e m).
    split; [by apply process_mention_found|]. simpl.
    split_and!; [done..|]. case_decide; auto.
  - returns_roster docs.
    apply first_mention_of_row.
Qed.

Example type_of_first_mention :
  aggregate
    [ mkDocument (Some [("0", mention [("entity_name", "A"); ("entity_type", "PERSON")]);
                        ("1", mention [("entity_name", "A"); ("entity_type", "ORG")])]) ]
  = [mkEntityRecord "A" "PERSON" "neutral" 2 "Unknown Role"].
Proof. vm_compute. reflexivity. Qed.

Lemma C9_frame_witness :
  ∃ e', process_mention [row_A; row_B] (mention [("entity_name", "B"); ("entity_type", "ORG")])
        = <[1 := e']> [row_A; row_B]
        ∧ name e' = "B" ∧ type e' = "Unknown"
        ∧ government_role e' = "Unknown Role"
        ∧ mention_count e' = 2
        ∧ (sentiment e' = "neutral" ∨ sentiment e' = "mixed").
Proof.
  destruct (C9_existing_row_keeps_name_type_role [] []) as [Hstep _].
  apply (Hstep [row_A; row_B]
           (mention [("entity_name", "B"); ("entity_type", "ORG")]) 1 row_B).
  vm_compute. reflexivity.
Defined.

(** ** Missing fields and missing input *)

Lemma length_filter_impl {A} (P Q : A → Prop)
    `{!∀ x, Decision (P x)} `{!∀ x, Decision (Q x)} (l : list A) :
  (∀ x, P x → Q x) → length (filter P l) ≤ length (filter Q l).
Proof.
  intros HPQ. induction l as [|x l IH]; [done|].
  rewrite !filter_cons.
  destruct (decide (P x)) as [HP|HP], (decide (Q x)) as [HQ|HQ]; simpl; try lia.
  destruct HQ. by apply HPQ.
Qed.

Lemma rows_same_name docs e1 e2 :
  e1 ∈ aggregate docs → e2 ∈ aggregate docs → name e1 = name e2 → e1 = e2.
Proof.
  intros H1 H2 Hname.
  pose proof (find_row_NoDup _ _ (NoDup_names_aggregate docs) H1) as F1.
  pose proof (find_row_NoDup _ _ (NoDup_names_aggregate docs) H2) as F2.
  congruence.
Qed.

(** C6. The aggregator returns for every document set, whatever fields its
    mentions lack. A row whose first mention has no [entity_type] has type
    ["Unknown"]; a row all of whose mentions have no [sentiment] or have
    ["neutral"] has sentiment ["neutral"]; and when some mention has no
    [entity_name] there is exactly one row named ["Unknown"], which counts
    every mention without a name, whatever its key. *)
Theorem C6_missing_fields_take_defaults docs others :
  ∃ out,
    extract_entities_from_sentiment_data (document_set docs others) = Ok out
    ∧ (∀ e m, e ∈ out → first_mention (name e) (all_mentions docs) = Some m →
          m !! "entity_type" = None → type e = "Unknown")
    ∧ (∀ e, e ∈ out →
          (∀ m, m ∈ all_mentions docs → mention_name m = name e →
                m !! "sentiment" = None ∨ m !! "sentiment" = Some "neutral") →
          sentiment e = "neutral")
    ∧ (∀ m, m ∈ all_mentions docs → m !! "entity_name" = None →
          ∃ e, e ∈ out ∧ name e = "Unknown"
               ∧ (∀ e', e' ∈ out → name e' = "Unknown" → e' = e)
               ∧ length (filter (λ m', m' !! "entity_name" = None) (all_mentions docs))
                 ≤ mention_count e).
Proof.
  exists (aggregate docs). split_and!.
  - apply extract_document_set.
  - intros e m (m' & Hfirst & _ & Htype & _)%first_mention_of_row Hm Hnone.
    rewrite Htype. replace m' with m by congruence.
    unfold mention_type. by rewrite Hnone.
  - intros e He Hall.
    destruct (sentiment_of_row docs e He) as [Hshared _].
    apply Hshared. intros m Hm Hn. unfold mention_sentiment.
    destruct (Hall m Hm Hn) as [-> | ->]; reflexivity.
  - intros m Hm Hnone.
    assert (mention_name m = "Unknown") as Hname.
    { unfold mention_name. by rewrite Hnone. }
    assert ("Unknown" ∈ (name <$> aggregate docs)) as Hin.
    { apply elem_of_names_aggregate. rewrite <-Hname.
      by apply list_elem_of_fmap_2. }
    apply list_elem_of_fmap in Hin as (e & He & Hin). exists e.
    split_and!; [done..| |].
    + intros e' He' Hn'. apply (rows_same_name docs); congruence.
    + destruct (aggregate_row docs e Hin) as (m0 & rest & Hms & Hrow).
      destruct (merge_fold_frame rest (new_row m0)) as (_ & _ & _ & Hcount).
      rewrite <-Hrow in Hcount. simpl in Hcount.
      transitivity (length (mentions_of (name e) (all_mentions docs))).
      * apply length_filter_impl. intros m' Hnone'.
        unfold mention_name. by rewrite Hnone', He.
      * rewrite Hms, Hcount. simpl. lia.
Qed.

Example sparse_roster :
  extract_entities_from_sentiment_data (document_set sparse_docs ["document_set_id"])
  = Ok [row_Ana; row_Unknown].
Proof. vm_compute. reflexivity. Qed.

Lemma C6_defaults_witness :
  type row_Unknown = "Unknown"
  ∧ sentiment row_Unknown = "neutral"
  ∧ ∃ e, e ∈ [row_Ana; row_Unknown] ∧ name e = "Unknown"
         ∧ (∀ e', e' ∈ [row_Ana; row_Unknown] → name e' = "Unknown" → e' = e)
         ∧ length (filter (λ m', m' !! "entity_name" = None) (all_mentions sparse_docs))
           ≤ mention_count e.
Proof.
  destruct (C6_missing_fields_take_defaults sparse_docs [])
    as (out & Hout & Htype & Hsentiment & Hname).
  vm_compute in Hout. injection Hout as <-. split_and!.
  - apply (Htype row_Unknown (mention [("sentiment", "neutral")]));
      [right; left|vm_compute; reflexivity..].
  - apply (Hsentiment row_Unknown); [right; left|].
    intros m Hm Hn. unfold sparse_docs, all_mentions in Hm. simpl in Hm.
    rewrite !elem_of_cons, elem_of_nil in Hm.
    destruct Hm as [->|[->|[->|[]]]].
    + vm_compute in Hn. discriminate Hn.
    + right. vm_compute. reflexivity.
    + left. vm_compute. reflexivity.
  - apply (Hname (mention [])); [|vm_compute; reflexivity].
    unfold sparse_docs, all_mentions. simpl. right; right; left.
Defined.

Lemma all_mentions_empty docs :
  (∀ doc, doc ∈ docs → doc_entities doc = []) → all_mentions docs = [].
Proof.
  induction docs as [|doc docs IH]; intros Hall; [done|].
  unfold all_mentions. simpl. rewrite (Hall doc) by left. simpl.
  apply IH. intros doc' Hdoc'. apply Hall. by right.
Qed.

(** C8. A document set with no document, or whose documents all have an
    empty (or absent) mention mapping, gives the empty roster, returned
    and not raised. *)
Theorem C8_empty_input_empty_roster docs others :
  (∀ doc, doc ∈ docs → doc_entities doc = []) →
  extract_entities_from_sentiment_data (document_set docs others) = Ok [].
Proof.
  intros Hall.
  by rewrite extract_document_set, aggregate_mentions, all_mentions_empty.
Qed.

Lemma C8_empty_input_witness :
  extract_entities_from_sentiment_data (document_set [] []) = Ok []
  ∧ extract_entities_from_sentiment_data
      (document_set [mkDocument (Some []); mkDocument None] ["document_set_id"])
    = Ok [].
Proof.
  split.
  - apply (C8_empty_input_empty_roster [] []).
    intros doc Hdoc. by apply elem_of_nil in Hdoc.
  - apply (C8_empty_input_empty_roster
             [mkDocument (Some []); mkDocument None] ["document_set_id"]).
    intros doc Hdoc. rewrite !elem_of_cons, elem_of_nil in Hdoc.
    destruct Hdoc as [->|[->|[]]]; reflexivity.
Defined.

(** C10. [None], and every other input that Python holds false (the empty
    mapping, list or string among them), gives the empty list; so does
    every mapping without a ['documents'] key. Nothing is raised. *)
Theorem C10_none_or_no_documents_key :
  extract_entities_from_sentiment_data PyNone = Ok []
  ∧ (∀ data, truthy data = false →
       extract_entities_from_sentiment_data data = Ok [])
  ∧ (∀ d, documents d = None →
       extract_entities_from_sentiment_data (PyDict d) = Ok []).
Proof.
  split_and!.
  - reflexivity.
  - intros data Hfalse. unfold extract_entities_from_sentiment_data.
    by rewrite Hfalse.
  - intros [docs others] Hnone. simpl in Hnone. subst docs.
    unfold extract_entities_from_sentiment_data. simpl.
    by destruct others.
Qed.

Lemma C10_none_or_empty_witness :
  extract_entities_from_sentiment_data (PyDict (mkSentimentData None [])) = Ok []
  ∧ extract_entities_from_sentiment_data (PyList 0) = Ok []
  ∧ extract_entities_from_sentiment_data (PyStr "") = Ok []
  ∧ extract_entities_from_sentiment_data
      (PyDict (mkSentimentData None ["document_set_id"])) = Ok [].
Proof.
  destruct C10_none_or_no_documents_key as (_ & Hfalse & Hnokey).
  split_and!.
  - apply Hfalse. reflexivity.
  - apply Hfalse. reflexivity.
  - apply Hfalse. reflexivity.
  - apply Hnokey. reflexivity.
Defined.

(** The guard matters only for inputs that are not mappings: a non-empty
    list has no [.get]. *)
Example non_empty_list_raises :
  extract_entities_from_sentiment_data (PyList 3) = Raise AttributeError.
Proof. reflexivity. Qed.

(** ** Further properties of the roster *)

Lemma total_mentions_process_mention roster m :
  total_mentions (process_mention roster m) = total_mentions roster + 1.
Proof.
  unfold total_mentions. induction roster as [|e r IH].
  - reflexivity.
  - rewrite process_mention_cons.
    destruct (decide (name e = mention_name m));
      rewrite !fmap_cons; cbn [sum_list_with id merge_row mention_count]; lia.
Qed.

Lemma total_mentions_fold ms roster :
  total_mentions (fold_left process_mention ms roster)
  = total_mentions roster + length ms.
Proof.
  revert roster. induction ms as [|m ms IH]; intros roster; simpl; [lia|].
  rewrite IH, total_mentions_process_mention. lia.
Qed.

Lemma mention_count_positive docs e :
  e ∈ aggregate docs → 1 ≤ mention_count e.
Proof.
  intros (m0 & rest & _ & ->)%aggregate_row.
  destruct (merge_fold_frame rest (new_row m0)) as (_ & _ & _ & ->).
  simpl. lia.
Qed.

Lemma length_le_total_mentions (rows : list EntityRecord) :
  (∀ e, e ∈ rows → 1 ≤ mention_count e) → length rows ≤ total_mentions rows.
Proof.
  unfold total_mentions. induction rows as [|e r IH]; intros Hpos; csimpl; [lia|].
  assert (1 ≤ mention_count e) by (apply Hpos; left).
  assert (length r ≤ sum_list (mention_count <$> r)).
  { apply IH. intros e' He'. apply Hpos. by right. }
  lia.
Qed.

(** The counts of the roster add up to the number of mentions read, and no
    row has a count below one; so there are at most as many rows as
    mentions. *)
Theorem roster_counts_add_up docs others :
  ∃ out,
    extract_entities_from_sentiment_data (document_set docs others) = Ok out
    ∧ total_mentions out = length (all_mentions docs)
    ∧ (∀ e, e ∈ out → 1 ≤ mention_count e)
    ∧ length out ≤ length (all_mentions docs).
Proof.
  returns_roster docs.
  assert (total_mentions (aggregate docs) = length (all_mentions docs)) as Htotal.
  { rewrite aggregate_mentions, total_mentions_fold. reflexivity. }
  split_and!; [done|apply mention_count_positive|].
  rewrite <-Htotal. apply length_le_total_mentions, mention_count_positive.
Qed.

Lemma roster_counts_witness :
  total_mentions [row_A; row_B] = 3 ∧ 1 ≤ mention_count row_B.
Proof.
  destruct (roster_counts_add_up scenario_docs []) as (out & Hout & Htotal & Hpos & _).
  vm_compute in Hout. injection Hout as <-.
  split; [exact Htotal|]. apply Hpos. right; left.
Defined.

Lemma row_plain_sentiment docs e v :
  e ∈ aggregate docs → v ≠ "mixed" →
  (sentiment e = v ↔ unanimous v (all_mentions docs) (name e)).
Proof.
  intros He Hv. unfold unanimous, mentions_of.
  rewrite Forall_forall.
  destruct (sentiment_of_row docs e He) as [Hshared Hmixed].
  split.
  - intros Hsent m [Hn Hm]%list_elem_of_filter.
    destruct (aggregate_row docs e He) as (m0 & rest & Hms & _).
    assert (m0 ∈ all_mentions docs ∧ mention_name m0 = name e) as [H0 Hn0].
    { assert (m0 ∈ mentions_of (name e) (all_mentions docs)) as Hin
        by (rewrite Hms; left).
      apply list_elem_of_filter in Hin. tauto. }
    assert (∀ m', m' ∈ all_mentions docs → mention_name m' = name e →
                  mention_sentiment m' = mention_sentiment m0) as Hsame.
    { intros m' Hm' Hn'.
      destruct (decide (mention_sentiment m' = mention_sentiment m0)) as [|Hne];
        [done|].
      destruct Hv. rewrite <-Hsent. by apply (Hmixed m' m0). }
    rewrite (Hsame m Hm Hn). rewrite <-Hsent. symmetry. by apply Hshared.
  - intros Hall. apply Hshared. intros m Hm Hn. apply Hall.
    by apply list_elem_of_filter.
Qed.

Lemma length_filter_fmap_iff {A B} (f : A → B) (P : A → Prop) (Q : B → Prop)
    `{!∀ x, Decision (P x)} `{!∀ y, Decision (Q y)} (l : list A) :
  (∀ x, x ∈ l → P x ↔ Q (f x)) →
  length (filter P l) = length (filter Q (f <$> l)).
Proof.
  induction l as [|x l IH]; intros Hiff; [done|].
  rewrite fmap_cons, !filter_cons.
  assert (length (filter P l) = length (filter Q (f <$> l))) as Hrest.
  { apply IH. intros y Hy. apply Hiff. by right. }
  destruct (Hiff x) as [H1 H2]; [left|].
  destruct (decide (P x)), (decide (Q (f x))); simpl; try lia; tauto.
Qed.

Lemma count_plain_sentiment docs v :
  v ≠ "mixed" →
  length (filter (λ e, sentiment e = v) (aggregate docs))
  = length (filter (unanimous v (all_mentions docs))
              (distinct_in_order [] (mention_name <$> all_mentions docs))).
Proof.
  intros Hv. rewrite <-names_aggregate.
  apply (length_filter_fmap_iff name). intros e He.
  by apply row_plain_sentiment.
Qed.

(** Every mention has a row of its resolved name, and that row, as every
    row, has a sentiment [v] other than ["mixed"] exactly when every mention
    of the name has sentiment [v]. Hence the page's negative count is the
    number of distinct names all of whose mentions are negative, and its
    positive count the number of those all of whose mentions are
    positive. *)
Theorem plain_sentiment_iff_unanimous docs others :
  ∃ out,
    extract_entities_from_sentiment_data (document_set docs others) = Ok out
    ∧ (∀ m v, m ∈ all_mentions docs → v ≠ "mixed" →
         ∃ e, e ∈ out ∧ name e = mention_name m
              ∧ (sentiment e = v
                 ↔ unanimous v (all_mentions docs) (mention_name m)))
    ∧ (∀ e v, e ∈ out → v ≠ "mixed" →
         (sentiment e = v ↔
          ∀ m, m ∈ all_mentions docs → mention_name m = name e →
               mention_sentiment m = v))
    ∧ negative_count out
      = length (filter (unanimous "negative" (all_mentions docs))
                  (distinct_in_order [] (mention_name <$> all_mentions docs)))
    ∧ positive_count out
      = length (filter (unanimous "positive" (all_mentions docs))
                  (distinct_in_order [] (mention_name <$> all_mentions docs))).
Proof.
  returns_roster docs. split_and!.
  - intros m v (e & He & Hname)%row_of_mention Hv. exists e.
    split_and!; [done..|]. rewrite <-Hname. by apply row_plain_sentiment.
  - intros e v He Hv. rewrite (row_plain_sentiment docs e v He Hv).
    unfold unanimous, mentions_of. rewrite Forall_forall.
    split; intros Hall m.
    + intros Hm Hn. apply Hall. by apply list_elem_of_filter.
    + intros [Hn Hm]%list_elem_of_filter. by apply Hall.
  - by apply count_plain_sentiment.
  - by apply count_plain_sentiment.
Qed.

(** Of Ana Rojas (one negative mention) and the two mentions without a
    name (neutral), one entity is counted as negative and none as
    positive, and the row of Ana Rojas is negative. *)
Lemma plain_sentiment_witness :
  ∃ out,
    extract_entities_from_sentiment_data (document_set sparse_docs []) = Ok out
    ∧ negative_count out = 1
    ∧ positive_count out = 0
    ∧ ∃ e, e ∈ out ∧ name e = "Ana Rojas" ∧ sentiment e = "negative".
Proof.
  destruct (plain_sentiment_iff_unanimous sparse_docs [])
    as (out & Hout & Hrows & _ & Hneg & Hpos).
  exists out. split_and!; [exact Hout|exact Hneg|exact Hpos|].
  destruct (Hrows (mention [("entity_name", "Ana Rojas");
                            ("entity_type", "PERSON");
                            ("sentiment", "negative")]) "negative")
    as (e & He & Hname & Hiff); [left|discriminate|].
  exists e. split_and!; [exact He|exact Hname|].
  apply Hiff. vm_compute. repeat constructor.
Defined.

Lemma all_mentions_app docs1 docs2 :
  all_mentions (docs1 ++ docs2) = all_mentions docs1 ++ all_mentions docs2.
Proof. unfold all_mentions. by rewrite map_app, concat_app. Qed.

Lemma all_mentions_cons doc docs :
  all_mentions (doc :: docs) = map snd (doc_entities doc) ++ all_mentions docs.
Proof. reflexivity. Qed.

Lemma all_mentions_Permutation docs1 docs2 :
  docs1 ≡ₚ docs2 → all_mentions docs1 ≡ₚ all_mentions docs2.
Proof.
  induction 1 as [|doc l1 l2 _ IH|d1 d2 l|l1 l2 l3 _ IH1 _ IH2].
  - done.
  - rewrite !all_mentions_cons. by rewrite IH.
  - rewrite !all_mentions_cons, !app_assoc.
    apply Permutation_app_tail, Permutation_app_comm.
  - by rewrite IH1.
Qed.

Lemma row_sentiment_of_first docs e m0 rest :
  e ∈ aggregate docs →
  mentions_of (name e) (all_mentions docs) = m0 :: rest →
  (Forall (λ m, mention_sentiment m = mention_sentiment m0) rest
   ∧ sentiment e = mention_sentiment m0)
  ∨ (Exists (λ m, mention_sentiment m ≠ mention_sentiment m0) rest
     ∧ sentiment e = "mixed").
Proof.
  intros He Hms. destruct (aggregate_row docs e He) as (m0' & rest' & Hms' & Hrow).
  rewrite Hms in Hms'. injection Hms' as <- <-.
  destruct (decide (Forall (λ m, mention_sentiment m = mention_sentiment m0) rest))
    as [Hall|Hex].
  - left. split; [done|]. rewrite Hrow, merge_fold_agree; [done|].
    intros m Hm. simpl. by eapply Forall_forall in Hall.
  - right. apply not_Forall_Exists in Hex; [|apply _]. split; [done|].
    apply Exists_exists in Hex as (m & Hm & Hne).
    rewrite Hrow. by apply (merge_fold_differ _ _ m).
Qed.

(** The rows do not depend on the order in which the mentions are read,
    except for their position and their type: two document sets with the
    same mentions in any order give the same names, and for each name the
    same count, sentiment and role. *)
Theorem roster_independent_of_mention_order docs1 docs2 others1 others2 :
  all_mentions docs1 ≡ₚ all_mentions docs2 →
  ∃ out1 out2,
    extract_entities_from_sentiment_data (document_set docs1 others1) = Ok out1
    ∧ extract_entities_from_sentiment_data (document_set docs2 others2) = Ok out2
    ∧ (name <$> out1) ≡ₚ (name <$> out2)
    ∧ ∀ e1 e2, e1 ∈ out1 → e2 ∈ out2 → name e1 = name e2 →
        mention_count e1 = mention_count e2
        ∧ sentiment e1 = sentiment e2
        ∧ government_role e1 = government_role e2.
Proof.
  intros Hperm. exists (aggregate docs1), (aggregate docs2).
  split_and!; [apply extract_document_set..| |].
  - apply NoDup_Permutation; [apply NoDup_names_aggregate..|].
    intros n. rewrite !elem_of_names_aggregate. by rewrite Hperm.
  - intros e1 e2 He1 He2 Hname.
    assert (mentions_of (name e1) (all_mentions docs1)
            ≡ₚ mentions_of (name e2) (all_mentions docs2)) as Hms.
    { rewrite Hname. unfold mentions_of. by rewrite Hperm. }
    destruct (aggregate_row docs1 e1 He1) as (m1 & rest1 & Hms1 & Hrow1).
    destruct (aggregate_row docs2 e2 He2) as (m2 & rest2 & Hms2 & Hrow2).
    destruct (merge_fold_frame rest1 (new_row m1)) as (Hn1 & _ & Hr1 & Hc1).
    destruct (merge_fold_frame rest2 (new_row m2)) as (Hn2 & _ & Hr2 & Hc2).
    rewrite <-Hrow1 in Hn1, Hr1, Hc1. rewrite <-Hrow2 in Hn2, Hr2, Hc2.
    simpl in *. split_and!.
    + apply Permutation_length in Hms. rewrite Hms1, Hms2 in Hms.
      simpl in Hms. lia.
    + destruct (sentiment_of_row docs1 e1 He1) as [Hshared1 Hmixed1].
      destruct (sentiment_of_row docs2 e2 He2) as [Hshared2 Hmixed2].
      assert (∀ m, (m ∈ all_mentions docs1 ∧ mention_name m = name e1)
                   ↔ m = m1 ∨ m ∈ rest1) as Hin1.
      { intros m. rewrite <-elem_of_cons, <-Hms1. unfold mentions_of.
        rewrite list_elem_of_filter. tauto. }
      destruct (row_sentiment_of_first docs1 e1 m1 rest1 He1 Hms1)
        as [[Hall Hs1]|[Hex Hs1]]; rewrite Hs1.
      * symmetry. apply Hshared2. intros m Hm Hn.
        assert (m = m1 ∨ m ∈ rest1) as [->|Hr].
        { apply Hin1. rewrite Hperm. split; congruence. }
        -- done.
        -- by eapply Forall_forall in Hall.
      * apply Exists_exists in Hex as (m & Hm & Hne). symmetry.
        assert (m ∈ all_mentions docs1 ∧ mention_name m = name e1) as [Ha Hb]
          by (apply Hin1; by right).
        assert (m1 ∈ all_mentions docs1 ∧ mention_name m1 = name e1) as [Hc Hd]
          by (apply Hin1; by left).
        apply (Hmixed2 m m1); [by rewrite <-Hperm..|congruence|congruence|done].
    + congruence.
Qed.

Lemma roster_order_witness :
  ∃ out1 out2,
    extract_entities_from_sentiment_data (document_set scenario_docs []) = Ok out1
    ∧ extract_entities_from_sentiment_data (document_set scenario_docs_swapped []) = Ok out2
    ∧ (name <$> out1) ≡ₚ (name <$> out2)
    ∧ ∀ e1 e2, e1 ∈ out1 → e2 ∈ out2 → name e1 = name e2 →
        mention_count e1 = mention_count e2
        ∧ sentiment e1 = sentiment e2
        ∧ government_role e1 = government_role e2.
Proof.
  apply (roster_independent_of_mention_order scenario_docs scenario_docs_swapped).
  apply (all_mentions_Permutation [_; _] [_; _]), perm_swap.
Defined.

(** The type, in contrast, is the first mention's, and so follows the
    order. *)
Example type_follows_the_order :
  type <$> aggregate
    [ mkDocument (Some [("0", mention [("entity_name", "A"); ("entity_type", "PERSON")])]);
      mkDocument (Some [("0", mention [("entity_name", "A"); ("entity_type", "ORG")])]) ]
  = ["PERSON"]
  ∧ type <$> aggregate
      [ mkDocument (Some [("0", mention [("entity_name", "A"); ("entity_type", "ORG")])]);
        mkDocument (Some [("0", mention [("entity_name", "A"); ("entity_type", "PERSON")])]) ]
    = ["ORG"].
Proof. split; vm_compute; reflexivity. Qed.

Lemma fold_mentions_frame ms roster i e :
  roster !! i = Some e →
  ∃ e', fold_left process_mention ms roster !! i = Some e'
        ∧ name e' = name e ∧ type e' = type e
        ∧ government_role e' = government_role e
        ∧ mention_count e ≤ mention_count e'.
Proof.
  revert roster e. induction ms as [|m ms IH]; intros roster e Hi.
  - exists e. done.
  - destruct (process_mention_lookup roster m i e Hi) as (e1 & H1 & Hcase).
    destruct (IH _ _ H1) as (e' & Hlook & Hn & Ht & Hr & Hc).
    exists e'. split; [done|].
    destruct Hcase as [->| ->]; simpl in *; split_and!; try done; lia.
Qed.

(** Reading further documents only appends rows and raises counts: the rows
    built from the first documents keep their position, name, type and
    role, and none is removed. *)
Theorem roster_grows_at_the_end docs1 docs2 others1 others2 :
  ∃ out1 out2,
    extract_entities_from_sentiment_data (document_set docs1 others1) = Ok out1
    ∧ extract_entities_from_sentiment_data (document_set (docs1 ++ docs2) others2)
      = Ok out2
    ∧ (name <$> out1) `prefix_of` (name <$> out2)
    ∧ ∀ i e, out1 !! i = Some e →
        ∃ e', out2 !! i = Some e'
              ∧ name e' = name e ∧ type e' = type e
              ∧ government_role e' = government_role e
              ∧ mention_count e ≤ mention_count e'.
Proof.
  exists (aggregate docs1), (aggregate (docs1 ++ docs2)).
  assert (aggregate (docs1 ++ docs2)
          = fold_left process_mention (all_mentions docs2) (aggregate docs1)) as Hmore.
  { rewrite !aggregate_mentions, all_mentions_app. apply fold_left_app. }
  split_and!; [apply extract_document_set..| |].
  - rewrite Hmore, names_fold. by eexists.
  - intros i e Hi. rewrite Hmore. by apply fold_mentions_frame.
Qed.

Lemma roster_grows_witness :
  ∃ e', aggregate (scenario_docs ++ late_favourite_docs) !! 1 = Some e'
        ∧ name e' = "B" ∧ type e' = "Unknown"
        ∧ government_role e' = "Unknown Role"
        ∧ 1 ≤ mention_count e'.
Proof.
  destruct (roster_grows_at_the_end scenario_docs late_favourite_docs [] [])
    as (out1 & out2 & Hout1 & Hout2 & _ & Hrows).
  rewrite extract_document_set in Hout1, Hout2.
  injection Hout1 as <-. injection Hout2 as <-.
  apply (Hrows 1 row_B). vm_compute. reflexivity.
Defined.

(** ** The pages *)

Lemma aggregate_nil_iff docs : aggregate docs = [] ↔ all_mentions docs = [].
Proof.
  split; intros Hnil.
  - pose proof (names_aggregate docs) as Hnames. rewrite Hnil in Hnames.
    destruct (all_mentions docs) as [|m ms]; [done|]. discriminate Hnames.
  - by rewrite aggregate_mentions, Hnil.
Qed.

Lemma display_entities_page_document_set sort_values docs others doc_set_id :
  display_entities_page sort_values (document_set docs others) doc_set_id =
    match aggregate docs with
    | [] => Ok (NoEntitiesFound (document_set_info doc_set_id))
    | rows =>
        Ok (EntitiesShown (document_set_info doc_set_id)
              (mkMetrics (length rows) (negative_count rows)
                 (positive_count rows) (total_mentions rows))
              (create_entity_dataframe sort_values rows)
              (top_entities (create_entity_dataframe sort_values rows))
              (selectbox_options (create_entity_dataframe sort_values rows)))
    end.
Proof.
  unfold display_entities_page. rewrite extract_document_set.
  by destruct (aggregate docs).
Qed.

Lemma display_baseball_cards_page_document_set images docs others :
  display_baseball_cards_page images (document_set docs others) =
    match aggregate docs with
    | [] => Ok CardsNoEntities
    | rows => Ok (CardsShown (imap (make_card images) rows))
    end.
Proof.
  unfold display_baseball_cards_page. rewrite extract_document_set.
  by destruct (aggregate docs).
Qed.

(** For a document set, each page gives its "no entities" warning exactly
    when no document holds a mention. *)
Theorem no_entities_warning_iff_no_mention
    sort_values images docs others doc_set_id :
  (display_entities_page sort_values (document_set docs others) doc_set_id
   = Ok (NoEntitiesFound (document_set_info doc_set_id))
   ↔ all_mentions docs = [])
  ∧ (display_baseball_cards_page images (document_set docs others)
     = Ok CardsNoEntities
     ↔ all_mentions docs = []).
Proof.
  rewrite display_entities_page_document_set,
    display_baseball_cards_page_document_set, <-aggregate_nil_iff.
  destruct (aggregate docs); split; split; done.
Qed.

(** Both pages return early, without calling the aggregator, for data that
    Python holds false. For a mapping without a ['documents'] key but with
    other keys they give their "no entities" warning, and for a document
    set (['documents'] a list of document mappings) they do not raise. For
    data that is true and not a mapping (a results file holding a non-empty
    list, a number or a string) they raise [AttributeError]. *)
Theorem pages_raise_exactly_for_true_non_mappings
    sort_values images (sentiment_data : PyData) doc_set_id :
  (truthy sentiment_data = false →
     display_entities_page sort_values sentiment_data doc_set_id = Ok NoAnalysisData
     ∧ display_baseball_cards_page images sentiment_data = Ok CardsNoData)
  ∧ (∀ others, others ≠ [] →
       sentiment_data = PyDict (mkSentimentData None others) →
       display_entities_page sort_values sentiment_data doc_set_id
       = Ok (NoEntitiesFound (document_set_info doc_set_id))
       ∧ display_baseball_cards_page images sentiment_data = Ok CardsNoEntities)
  ∧ (∀ docs others, sentiment_data = document_set docs others →
       ∃ page cards,
         display_entities_page sort_values sentiment_data doc_set_id = Ok page
         ∧ display_baseball_cards_page images sentiment_data = Ok cards)
  ∧ (truthy sentiment_data = true → (∀ d, sentiment_data ≠ PyDict d) →
       display_entities_page sort_values sentiment_data doc_set_id
       = Raise AttributeError
       ∧ display_baseball_cards_page images sentiment_data = Raise AttributeError).
Proof.
  split_and!.
  - intros Hfalse.
    unfold display_entities_page, display_baseball_cards_page. by rewrite Hfalse.
  - intros others Hothers ->. by destruct others.
  - intros docs others ->.
    rewrite display_entities_page_document_set,
      display_baseball_cards_page_document_set.
    destruct (aggregate docs); eauto.
  - intros Htrue Hnot.
    unfold display_entities_page, display_baseball_cards_page,
      extract_entities_from_sentiment_data.
    rewrite Htrue. simpl.
    destruct sentiment_data; try done. by destruct (Hnot d).
Qed.

Lemma pages_raise_witness :
  display_entities_page sort_forward (PyList 2) None = Raise AttributeError
  ∧ display_baseball_cards_page ∅ (PyList 2) = Raise AttributeError
  ∧ display_entities_page sort_forward (PyList 0) None = Ok NoAnalysisData
  ∧ display_entities_page sort_forward
      (PyDict (mkSentimentData None ["document_set_id"])) None
    = Ok (NoEntitiesFound None).
Proof.
  destruct (pages_raise_exactly_for_true_non_mappings sort_forward ∅ (PyList 2) None)
    as (_ & _ & _ & Hraise).
  destruct (pages_raise_exactly_for_true_non_mappings sort_forward ∅ (PyList 0) None)
    as (Hfalse & _ & _ & _).
  destruct (pages_raise_exactly_for_true_non_mappings sort_forward ∅
              (PyDict (mkSentimentData None ["document_set_id"])) None)
    as (_ & Hnokey & _ & _).
  split_and!.
  - apply Hraise; [reflexivity|discriminate].
  - apply Hraise; [reflexivity|discriminate].
  - apply Hfalse. reflexivity.
  - apply (Hnokey ["document_set_id"]); [discriminate|reflexivity].
Defined.

Lemma length_filter_disjoint {A} (P Q : A → Prop)
    `{!∀ x, Decision (P x)} `{!∀ x, Decision (Q x)} (l : list A) :
  (∀ x, P x → Q x → False) →
  length (filter P l) + length (filter Q l) ≤ length l.
Proof.
  intros Hdisj. induction l as [|x l IH]; [done|].
  rewrite !filter_cons.
  destruct (decide (P x)) as [HP|HP], (decide (Q x)) as [HQ|HQ]; simpl; try lia.
  destruct (Hdisj x HP HQ).
Qed.

(** When some document holds a mention, the entities page shows its
    metrics: as many entities as there are distinct names, and a negative
    and a positive count that together do not exceed it. *)
Theorem entities_page_metrics sort_values docs others doc_set_id :
  all_mentions docs ≠ [] →
  ∃ metrics df top options,
    display_entities_page sort_values (document_set docs others) doc_set_id
    = Ok (EntitiesShown (document_set_info doc_set_id) metrics df top options)
    ∧ metric_total_entities metrics
      = size (list_to_set (mention_name <$> all_mentions docs) : gset string)
    ∧ metric_total_mentions metrics = length (all_mentions docs)
    ∧ metric_negative metrics + metric_positive metrics
      ≤ metric_total_entities metrics.
Proof.
  intros Hsome. rewrite display_entities_page_document_set.
  assert (length (aggregate docs)
          = size (list_to_set (mention_name <$> all_mentions docs) : gset string))
    as Hdistinct.
  { rewrite <-(length_fmap name).
    rewrite <-(size_list_to_set (C:=gset string) (name <$> aggregate docs))
      by apply NoDup_names_aggregate.
    f_equal. apply set_eq. intros n.
    rewrite !elem_of_list_to_set. apply elem_of_names_aggregate. }
  assert (total_mentions (aggregate docs) = length (all_mentions docs)) as Htotal.
  { rewrite aggregate_mentions, total_mentions_fold. reflexivity. }
  assert (negative_count (aggregate docs) + positive_count (aggregate docs)
          ≤ length (aggregate docs)) as Hsplit.
  { apply length_filter_disjoint. intros e Hneg Hpos. congruence. }
  rewrite <-aggregate_nil_iff in Hsome.
  destruct (aggregate docs) as [|e rows] eqn:Hrows; [done|].
  eexists _, _, _, _. split; [reflexivity|]. simpl. done.
Qed.

Lemma entities_page_metrics_witness :
  ∃ metrics df top options,
    display_entities_page sort_forward (document_set scenario_docs []) (Some "ds-1")
    = Ok (EntitiesShown (Some "ds-1") metrics df top options)
    ∧ metric_total_entities metrics
      = size (list_to_set (mention_name <$> all_mentions scenario_docs) : gset string)
    ∧ metric_total_mentions metrics = length (all_mentions scenario_docs)
    ∧ metric_negative metrics + metric_positive metrics
      ≤ metric_total_entities metrics.
Proof.
  apply (entities_page_metrics sort_forward scenario_docs [] (Some "ds-1")).
  discriminate.
Defined.

Example scenario_page :
  display_entities_page sort_forward (document_set scenario_docs []) (Some "")
  = Ok (EntitiesShown None (mkMetrics 2 0 0 3) [row_A; row_B] [row_A; row_B]
          ["A"; "B"]).
Proof. vm_compute. reflexivity. Qed.

Lemma by_mention_count_desc_transitive : Transitive by_mention_count_desc.
Proof. intros a b c. unfold by_mention_count_desc. lia. Qed.

Lemma NoDup_aggregate docs : NoDup (aggregate docs).
Proof. apply (NoDup_fmap_1 name), NoDup_names_aggregate. Qed.

Lemma display_entities_page_shown
    sort_values sentiment_data doc_set_id info metrics df top options :
  display_entities_page sort_values sentiment_data doc_set_id
  = Ok (EntitiesShown info metrics df top options) →
  ∃ rows,
    extract_entities_from_sentiment_data sentiment_data = Ok rows
    ∧ rows ≠ []
    ∧ metric_total_entities metrics = length rows
    ∧ df = create_entity_dataframe sort_values rows
    ∧ top = top_entities df
    ∧ options = selectbox_options df.
Proof.
  unfold display_entities_page. destruct (truthy sentiment_data); [|done].
  cbn [negb].
  destruct (extract_entities_from_sentiment_data sentiment_data) as [rows|];
    [|done].
  destruct rows as [|e0 rows']; [done|]. intros Hpage.
  exists (e0 :: rows'). injection Hpage as <- <- <- <- <-. done.
Qed.

Section sorted_frame.
Variable sort_values : list EntityRecord → list EntityRecord.
Hypothesis sort_values_perm : ∀ rows, sort_values rows ≡ₚ rows.
Hypothesis sort_values_sorted :
  ∀ rows, Sorted by_mention_count_desc (sort_values rows).

Lemma frame_Permutation rows : create_entity_dataframe sort_values rows ≡ₚ rows.
Proof. destruct rows; [done|apply sort_values_perm]. Qed.

Lemma frame_StronglySorted rows :
  StronglySorted by_mention_count_desc (create_entity_dataframe sort_values rows).
Proof.
  apply Sorted_StronglySorted; [apply by_mention_count_desc_transitive|].
  destruct rows; [constructor|apply sort_values_sorted].
Qed.

(** Whatever is shown on the entities page, the chart of top entities holds
    the first ten rows of the table, or all of them when there are fewer; no
    entity left out of it has more mentions than one in it, and the first
    row, which the selection box starts on, has the largest count of all. *)
Theorem top_entities_are_the_most_mentioned
    sentiment_data doc_set_id info metrics df top options :
  display_entities_page sort_values sentiment_data doc_set_id
  = Ok (EntitiesShown info metrics df top options) →
  length top = min 10 (metric_total_entities metrics)
  ∧ top `prefix_of` df
  ∧ (∀ a b, a ∈ top → b ∈ df → b ∉ top → mention_count b ≤ mention_count a)
  ∧ (∀ first, head df = Some first →
       head options = Some (name first)
       ∧ ∀ e, e ∈ df → mention_count e ≤ mention_count first).
Proof.
  intros (rows & _ & _ & Hlen & -> & -> & ->)%display_entities_page_shown.
  pose proof (frame_Permutation rows) as Hperm.
  pose proof (frame_StronglySorted rows) as Hsorted.
  unfold top_entities. rewrite Hlen. split_and!.
  - by rewrite length_take, Hperm.
  - apply prefix_take.
  - intros a b Ha Hb Hnot.
    rewrite <-(take_drop 10 (create_entity_dataframe sort_values rows)) in Hb, Hsorted.
    apply elem_of_app in Hb as [Hb|Hb]; [done|].
    apply (StronglySorted_app_1_elem_of _ _ _ a b Hsorted Ha Hb).
  - intros first Hhead. unfold selectbox_options.
    destruct (create_entity_dataframe sort_values rows) as [|d df']; [done|].
    injection Hhead as ->. split; [done|].
    intros e [->|He]%elem_of_cons; [done|].
    apply StronglySorted_inv in Hsorted as [_ Hall].
    by eapply Forall_forall in Hall.
Qed.

(** On the page of a document set, every name that the selection box offers
    is the name of exactly one row of the table, and choosing it finds that
    row in the roster; only the empty name, which Python holds false, finds
    none. *)
Theorem every_option_finds_its_row
    docs others doc_set_id info metrics df top options selected_entity :
  display_entities_page sort_values (document_set docs others) doc_set_id
  = Ok (EntitiesShown info metrics df top options) →
  selected_entity ∈ options →
  NoDup options
  ∧ if decide (selected_entity = "")
    then entity_info (aggregate docs) selected_entity = None
    else ∃ e, entity_info (aggregate docs) selected_entity = Some e
              ∧ name e = selected_entity ∧ e ∈ df.
Proof.
  rewrite display_entities_page_document_set.
  destruct (aggregate docs) as [|e0 rows'] eqn:Hrows; [done|].
  rewrite <-Hrows. intros [= <- <- <- <- <-] Hsel.
  pose proof (frame_Permutation (aggregate docs)) as Hperm.
  unfold selectbox_options in *. rewrite Hperm in Hsel. split.
  - rewrite Hperm. apply NoDup_names_aggregate.
  - unfold entity_info. case_decide; [done|].
    apply list_elem_of_fmap in Hsel as (e & -> & He). exists e.
    split_and!; [|done|by rewrite Hperm].
    by apply find_row_NoDup; [apply NoDup_names_aggregate|].
Qed.

End sorted_frame.

(** Thirteen mentions of twelve entities: the chart takes ten of the twelve
    rows; [E08], with one mention, is in the table and not in the chart,
    and has no more mentions than [E12], with two, which heads both. *)
Lemma top_entities_witness :
  length (top_entities crowd_frame) = 10
  ∧ length crowd_frame = 12
  ∧ crowd_row "E12" 2 ∈ top_entities crowd_frame
  ∧ crowd_row "E08" 1 ∈ crowd_frame
  ∧ (crowd_row "E08" 1 ∉ top_entities crowd_frame)
  ∧ mention_count (crowd_row "E08" 1) ≤ mention_count (crowd_row "E12" 2)
  ∧ head (selectbox_options crowd_frame) = Some "E12".
Proof.
  destruct (top_entities_are_the_most_mentioned sort_forward
              (proj1 sort_forward_contract) (proj2 sort_forward_contract)
              (document_set crowd_docs []) None None (mkMetrics 12 0 0 13)
              crowd_frame (top_entities crowd_frame)
              (selectbox_options crowd_frame))
    as (Hlen & _ & Hcut & Hfirst); [vm_compute; reflexivity|].
  assert (crowd_row "E12" 2 ∈ top_entities crowd_frame) as Hin
    by (vm_compute; left).
  assert (crowd_row "E08" 1 ∈ crowd_frame) as Htable
    by (vm_compute; do 11 right; left).
  assert (crowd_row "E08" 1 ∉ top_entities crowd_frame) as Hout.
  { vm_compute. intros Hbad.
    repeat (apply elem_of_cons in Hbad as [Hbad|Hbad]; [discriminate Hbad|]).
    by apply elem_of_nil in Hbad. }
  split_and!; [exact Hlen|reflexivity|exact Hin|exact Htable|exact Hout| |].
  - exact (Hcut _ _ Hin Htable Hout).
  - destruct (Hfirst (crowd_row "E12" 2)) as [Hopt _]; [reflexivity|exact Hopt].
Defined.

Example crowd_chart :
  name <$> top_entities crowd_frame
  = ["E12"; "E09"; "E10"; "E11"; "E01"; "E02"; "E03"; "E04"; "E05"; "E06"].
Proof. vm_compute. reflexivity. Qed.

Lemma every_option_witness :
  NoDup ["A"; "B"]
  ∧ ∃ e, entity_info (aggregate scenario_docs) "B" = Some e
         ∧ name e = "B" ∧ e ∈ [row_A; row_B].
Proof.
  apply (every_option_finds_its_row sort_forward (proj1 sort_forward_contract)
           scenario_docs [] (Some "") None (mkMetrics 2 0 0 3)
           [row_A; row_B] [row_A; row_B] ["A"; "B"] "B").
  - vm_compute. reflexivity.
  - right; left.
Defined.

(** A mention whose name is the empty string gets a row and an option, but
    no details. *)
Example empty_name_has_no_details :
  aggregate [mkDocument (Some [("0", mention [("entity_name", "")])])]
  = [mkEntityRecord "" "Unknown" "neutral" 1 "Unknown Role"]
  ∧ entity_info
      (aggregate [mkDocument (Some [("0", mention [("entity_name", "")])])]) ""
    = None.
Proof. split; vm_compute; reflexivity. Qed.

(** ** The cards *)

Lemma tables_agree n :
  (entity_roles !! n = None ∧ entity_details !! n = None)
  ∨ (∃ r d dep desc,
       entity_roles !! n = Some r ∧ r ≠ "Unknown Role"
       ∧ entity_details !! n = Some d
       ∧ d !! "department" = Some dep ∧ dep ≠ "Unknown"
       ∧ d !! "description" = Some desc ∧ desc ≠ "No description available").
Proof.
  destruct (decide (n = "José Raúl Mulino")) as [->|H1].
  { right. eexists _, _, _, _. split_and!; [vm_compute; reflexivity|done|
      vm_compute; reflexivity|vm_compute; reflexivity|done|
      vm_compute; reflexivity|done]. }
  destruct (decide (n = "Ana Rojas")) as [->|H2].
  { right. eexists _, _, _, _. split_and!; [vm_compute; reflexivity|done|
      vm_compute; reflexivity|vm_compute; reflexivity|done|
      vm_compute; reflexivity|done]. }
  destruct (decide (n = "Carlos Méndez")) as [->|H3].
  { right. eexists _, _, _, _. split_and!; [vm_compute; reflexivity|done|
      vm_compute; reflexivity|vm_compute; reflexivity|done|
      vm_compute; reflexivity|done]. }
  destruct (decide (n = "Marta Linares")) as [->|H4].
  { right. eexists _, _, _, _. split_and!; [vm_compute; reflexivity|done|
      vm_compute; reflexivity|vm_compute; reflexivity|done|
      vm_compute; reflexivity|done]. }
  left. unfold entity_roles, entity_details.
  rewrite !lookup_insert_ne by done. by rewrite !lookup_empty.
Qed.

Lemma card_of_row images rows c :
  c ∈ imap (make_card images) rows →
  ∃ i e, rows !! i = Some e ∧ c = make_card images i e.
Proof.
  intros (i & Hi)%list_elem_of_lookup. rewrite list_lookup_imap in Hi.
  destruct (rows !! i) as [e|] eqn:He; [|done].
  exists i, e. split; [done|]. by injection Hi.
Qed.

(** When some document holds a mention, the cards page shows one card per
    distinct name, in the order in which the names are first encountered
    (not by count, as the table is), numbered from zero, each with the
    number of mentions of its name. *)
Theorem cards_follow_first_seen_order images docs others :
  all_mentions docs ≠ [] →
  ∃ cards,
    display_baseball_cards_page images (document_set docs others)
    = Ok (CardsShown cards)
    ∧ card_name <$> cards
      = distinct_in_order [] (mention_name <$> all_mentions docs)
    ∧ card_index <$> cards = seq 0 (length cards)
    ∧ ∀ c, c ∈ cards →
        card_mention_count c
        = length (mentions_of (card_name c) (all_mentions docs)).
Proof.
  intros Hsome. rewrite display_baseball_cards_page_document_set.
  rewrite <-aggregate_nil_iff in Hsome.
  destruct (aggregate docs) as [|e0 rows'] eqn:Hrows; [done|]. rewrite <-Hrows.
  eexists. split; [reflexivity|]. split_and!.
  - rewrite <-names_aggregate. apply list_eq. intros i.
    rewrite !list_lookup_fmap, list_lookup_imap.
    by destruct (aggregate docs !! i).
  - apply list_eq. intros i.
    rewrite list_lookup_fmap, list_lookup_imap, length_imap.
    destruct (aggregate docs !! i) as [e|] eqn:He; simpl.
    + symmetry. apply lookup_seq. split; [done|]. by eapply lookup_lt_Some.
    + symmetry. apply lookup_seq_ge. by apply lookup_ge_None.
  - intros c (i & e & He & ->)%card_of_row. simpl.
    apply list_elem_of_lookup_2 in He.
    destruct (aggregate_row docs e He) as (m0 & rest & Hms & Hrow).
    destruct (merge_fold_frame rest (new_row m0)) as (_ & _ & _ & Hcount).
    rewrite <-Hrow in Hcount. rewrite Hms, Hcount. simpl. lia.
Qed.

Lemma cards_order_witness :
  ∃ cards,
    display_baseball_cards_page ∅ (document_set late_favourite_docs [])
    = Ok (CardsShown cards)
    ∧ card_name <$> cards
      = distinct_in_order [] (mention_name <$> all_mentions late_favourite_docs)
    ∧ card_index <$> cards = seq 0 (length cards)
    ∧ ∀ c, c ∈ cards →
        card_mention_count c
        = length (mentions_of (card_name c) (all_mentions late_favourite_docs)).
Proof.
  apply (cards_follow_first_seen_order ∅ late_favourite_docs []). discriminate.
Defined.

Example late_favourite_cards :
  display_baseball_cards_page ∅ (document_set late_favourite_docs [])
  = Ok (CardsShown
          [ mkCard 0 placeholder_portrait "A" "Unknown Role" 1 "⚪" "Unknown"
              "Unknown" "neutral" "No description available";
            mkCard 1 placeholder_portrait "B" "Unknown Role" 2 "⚪" "Unknown"
              "Unknown" "neutral" "No description available" ]).
Proof. vm_compute. reflexivity. Qed.

(** The role table and the details table have the same names. So on every
    card the role is ["Unknown Role"] exactly when the department is
    ["Unknown"], and exactly when the description is
    ["No description available"]: a card is known throughout or not at
    all. *)
Theorem cards_known_throughout_or_not_at_all images docs others :
  ∃ page,
    display_baseball_cards_page images (document_set docs others) = Ok page
    ∧ ∀ cards c, page = CardsShown cards → c ∈ cards →
        (card_role c = "Unknown Role" ↔ entity_roles !! card_name c = None)
        ∧ (card_role c = "Unknown Role" ↔ card_department c = "Unknown")
        ∧ (card_role c = "Unknown Role"
           ↔ card_description c = "No description available").
Proof.
  rewrite display_baseball_cards_page_document_set.
  destruct (aggregate docs) as [|e0 rows'] eqn:Hrows;
    [eexists; split; [reflexivity|]; intros cards c [=]|].
  rewrite <-Hrows. eexists. split; [reflexivity|].
  intros cards c [= <-] (i & e & He & ->)%card_of_row.
  apply list_elem_of_lookup_2 in He.
  destruct (first_mention_of_row docs e He) as (m & _ & Hname & _ & Hrole).
  rewrite <-Hname in Hrole. simpl. rewrite Hrole.
  destruct (tables_agree (name e))
    as [[-> ->]|(r & d & dep & desc & -> & Hr & -> & Hdep & Hdep' & Hdesc & Hdesc')];
    simpl.
  - rewrite !lookup_empty. simpl. done.
  - rewrite Hdep, Hdesc. simpl. split_and!; split; intros; congruence.
Qed.

Lemma cards_known_witness :
  card_role (make_card ∅ 0 row_Ana) ≠ "Unknown Role"
  ∧ card_department (make_card ∅ 1 row_Unknown) = "Unknown".
Proof.
  destruct (cards_known_throughout_or_not_at_all ∅ sparse_docs [])
    as (page & Hpage & Hcards).
  vm_compute in Hpage. injection Hpage as <-. split.
  - destruct (Hcards _ (make_card ∅ 0 row_Ana) eq_refl) as (Hknown & _ & _);
      [left|].
    intros Hrole. apply Hknown in Hrole. vm_compute in Hrole. discriminate Hrole.
  - destruct (Hcards _ (make_card ∅ 1 row_Unknown) eq_refl) as (_ & Hdep & _);
      [right; left|].
    apply Hdep. reflexivity.
Defined.

(** ** The loaders *)

Lemma parse_errors_app open_json paths1 paths2 :
  parse_errors open_json (paths1 ++ paths2)
  = parse_errors open_json paths1 ++ parse_errors open_json paths2.
Proof. apply omap_app. Qed.

Lemma load_sentiment_from_skipped open_json paths1 paths2 shown :
  (∀ p, p ∈ paths1 → json_skipped (open_json p)) →
  load_sentiment_from open_json (paths1 ++ paths2) shown
  = load_sentiment_from open_json paths2 (shown ++ parse_errors open_json paths1).
Proof.
  revert shown. induction paths1 as [|p paths1 IH]; intros shown Hskip.
  - simpl. by rewrite app_nil_r.
  - assert (json_skipped (open_json p)) as Hp by (apply Hskip; left).
    assert (∀ q, q ∈ paths1 → json_skipped (open_json q)) as Hrest
      by (intros q Hq; apply Hskip; by right).
    unfold parse_errors. simpl.
    destruct (open_json p) eqn:Hread; try done; rewrite IH by done.
    + done.
    + by rewrite <-app_assoc.
Qed.

Lemma load_sentiment_from_all_skipped open_json paths shown :
  (∀ p, p ∈ paths → json_skipped (open_json p)) →
  load_sentiment_from open_json paths shown
  = Returned (shown ++ parse_errors open_json paths ++ [ErrorSentimentNotFound])
      PyNone.
Proof.
  intros Hskip. rewrite <-(app_nil_r paths) at 1.
  rewrite load_sentiment_from_skipped by done. simpl. by rewrite <-app_assoc.
Qed.

Lemma parse_errors_ext open_json open_json' paths :
  (∀ p, p ∈ paths → open_json' p = open_json p) →
  parse_errors open_json' paths = parse_errors open_json paths.
Proof.
  induction paths as [|p paths IH]; intros Hsame; [done|].
  change (p :: paths) with ([p] ++ paths). rewrite !parse_errors_app.
  f_equal.
  - unfold parse_errors. simpl. by rewrite (Hsame p) by left.
  - apply IH. intros q Hq. apply Hsame. by right.
Qed.

Lemma load_sentiment_from_first open_json paths1 p paths2 shown :
  (∀ q, q ∈ paths1 → json_skipped (open_json q)) →
  ¬ json_skipped (open_json p) →
  load_sentiment_from open_json (paths1 ++ p :: paths2) shown
  = load_outcome_at open_json paths1 p shown.
Proof.
  intros Hskip Hused. rewrite load_sentiment_from_skipped by done.
  unfold load_outcome_at. simpl.
  destruct (open_json p); try done. by rewrite <-app_assoc.
Qed.

(** [load_sentiment_data] stops at the first of its three paths whose file
    is there and is not malformed JSON: it returns the data of that file
    after one parse error for each malformed file tried before it, or lets
    that file's exception through. The later paths are not read. *)
Theorem load_sentiment_data_first_usable open_json i file_path :
  sentiment_paths !! i = Some file_path →
  (∀ p, p ∈ take i sentiment_paths → json_skipped (open_json p)) →
  ¬ json_skipped (open_json file_path) →
  (∀ data, open_json file_path = JsonLoaded data →
     load_sentiment_data open_json
     = Returned (parse_errors open_json (take i sentiment_paths)
                 ++ [SuccessSentimentLoaded file_path]) data)
  ∧ (∀ e, open_json file_path = JsonOtherError e →
       load_sentiment_data open_json
       = Propagated (parse_errors open_json (take i sentiment_paths)) e)
  ∧ ∀ open_json',
      (∀ p, p ∈ take (S i) sentiment_paths → open_json' p = open_json p) →
      load_sentiment_data open_json' = load_sentiment_data open_json.
Proof.
  intros Hi Hskip Hused.
  assert (load_sentiment_data open_json
          = load_outcome_at open_json (take i sentiment_paths) file_path [])
    as Hload.
  { unfold load_sentiment_data. rewrite <-(take_drop_middle _ _ _ Hi) at 1.
    by apply load_sentiment_from_first. }
  split_and!.
  - intros data Hdata. rewrite Hload. unfold load_outcome_at. by rewrite Hdata.
  - intros e He. rewrite Hload. unfold load_outcome_at. by rewrite He.
  - intros oj Hsame. rewrite Hload. unfold load_sentiment_data.
    rewrite <-(take_drop_middle _ _ _ Hi) at 1.
    rewrite (take_S_r _ _ _ Hi) in Hsame.
    assert (∀ p, p ∈ take i sentiment_paths → oj p = open_json p) as Hpre
      by (intros p Hp; apply Hsame, elem_of_app; by left).
    assert (oj file_path = open_json file_path) as Hfile
      by (apply Hsame, elem_of_app; right; left).
    rewrite load_sentiment_from_first.
    + unfold load_outcome_at. by rewrite Hfile, (parse_errors_ext open_json oj).
    + intros p Hp. rewrite Hpre by done. by apply Hskip.
    + by rewrite Hfile.
Qed.

Lemma load_sentiment_data_witness :
  load_sentiment_data malformed_in_root
  = Returned
      [ ErrorParsingJson "panama_sentiment_results.json"
          "Expecting value: line 1 column 1 (char 0)";
        ErrorParsingJson "./panama_sentiment_results.json"
          "Expecting value: line 1 column 1 (char 0)";
        SuccessSentimentLoaded "data/panama_sentiment_results.json" ]
      (document_set scenario_docs []).
Proof.
  destruct (load_sentiment_data_first_usable malformed_in_root 2
              "data/panama_sentiment_results.json") as (Hloaded & _ & _).
  - reflexivity.
  - intros p Hp. simpl in Hp. rewrite !elem_of_cons, elem_of_nil in Hp.
    destruct Hp as [->|[->|[]]]; exact I.
  - intros Hskip. exact Hskip.
  - apply (Hloaded (document_set scenario_docs [])). reflexivity.
Defined.

(** [load_sentiment_data] ends on its "file not found" error exactly when
    each of the three paths is missing or malformed; it then returns
    [None], after one parse error for each malformed file. *)
Theorem load_sentiment_data_not_found_iff open_json :
  (∃ shown value,
     load_sentiment_data open_json
     = Returned (shown ++ [ErrorSentimentNotFound]) value)
  ↔ (∀ p, p ∈ sentiment_paths → json_skipped (open_json p))
    ∧ load_sentiment_data open_json
      = Returned (parse_errors open_json sentiment_paths
                  ++ [ErrorSentimentNotFound]) PyNone.
Proof.
  split; [|intros [_ Hload]; eauto].
  intros (shown & value & Hload).
  assert (∀ p, p ∈ sentiment_paths → json_skipped (open_json p)) as Hskip.
  { apply Forall_forall.
    destruct (decide (Forall (λ p, json_skipped (open_json p)) sentiment_paths))
      as [|Hnot]; [done|].
    apply not_Forall_Exists in Hnot; [|apply _].
    apply Exists_exists in Hnot as (q & Hq & Hused). simpl in Hused.
    destruct (list_find_elem_of (λ p, ¬ json_skipped (open_json p))
                sentiment_paths q Hq Hused) as [[i p] Hfind].
    apply list_find_Some in Hfind as (Hi & Hp & Hbefore).
    unfold load_sentiment_data in Hload.
    rewrite <-(take_drop_middle _ _ _ Hi) in Hload at 1.
    rewrite load_sentiment_from_first in Hload; [|
      intros p' (j & Hj & Hlt)%elem_of_take;
      destruct (decide (json_skipped (open_json p'))) as [|Hno]; [done|];
      destruct (Hbefore j p' Hj Hlt Hno) | done].
    unfold load_outcome_at in Hload.
    destruct (open_json p); try (by destruct Hp).
    injection Hload as Hshown _. simpl in Hshown.
    apply app_inj_tail in Hshown as [_ Hlast]. discriminate Hlast. }
  split; [done|].
  unfold load_sentiment_data. by rewrite load_sentiment_from_all_skipped.
Qed.

(** A results file that holds [null] is loaded with a success message and
    yet gives [None], as does finding no file at all. *)
Example null_file_is_loaded :
  load_sentiment_data (λ _, JsonLoaded PyNone)
  = Returned [SuccessSentimentLoaded "panama_sentiment_results.json"] PyNone
  ∧ load_sentiment_data (λ _, JsonNotFound)
    = Returned [ErrorSentimentNotFound] PyNone.
Proof. split; reflexivity. Qed.

Lemma load_document_set_id_from_missing open_text strip paths1 paths2 shown :
  (∀ p, p ∈ paths1 → open_text p = TextNotFound) →
  load_document_set_id_from open_text strip (paths1 ++ paths2) shown
  = load_document_set_id_from open_text strip paths2 shown.
Proof.
  induction paths1 as [|p paths1 IH]; intros Hmissing; [done|].
  simpl. rewrite (Hmissing p) by left.
  apply IH. intros q Hq. apply Hmissing. by right.
Qed.

(** [load_document_set_id] returns the stripped content of the first of its
    three paths that exists, so a file in the working directory hides the
    one under [data/]; and it returns [None] exactly when none of the three
    exists. *)
Theorem load_document_set_id_first_found open_text strip :
  (∀ i file_path content,
     document_set_id_paths !! i = Some file_path →
     (∀ p, p ∈ take i document_set_id_paths → open_text p = TextNotFound) →
     open_text file_path = TextContent content →
     load_document_set_id open_text strip
     = Returned [SuccessDocumentSetIdLoaded file_path] (Some (strip content)))
  ∧ ((∃ shown, load_document_set_id open_text strip = Returned shown None)
     ↔ ∀ p, p ∈ document_set_id_paths → open_text p = TextNotFound).
Proof.
  split.
  - intros i file_path content Hi Hmissing Hcontent.
    unfold load_document_set_id. rewrite <-(take_drop_middle _ _ _ Hi).
    rewrite load_document_set_id_from_missing by done.
    simpl. by rewrite Hcontent.
  - split.
    + intros [shown Hload]. apply Forall_forall.
      destruct (decide (Forall (λ p, open_text p = TextNotFound)
                          document_set_id_paths)) as [|Hnot]; [done|].
      apply not_Forall_Exists in Hnot; [|apply _].
      apply Exists_exists in Hnot as (q & Hq & Hthere). simpl in Hthere.
      destruct (list_find_elem_of (λ p, open_text p ≠ TextNotFound)
                  document_set_id_paths q Hq Hthere) as [[i p] Hfind].
      apply list_find_Some in Hfind as (Hi & Hp & Hbefore).
      unfold load_document_set_id in Hload.
      rewrite <-(take_drop_middle _ _ _ Hi) in Hload.
      rewrite load_document_set_id_from_missing in Hload.
      * simpl in Hload. by destruct (open_text p).
      * intros p' (j & Hj & Hlt)%elem_of_take.
        destruct (decide (open_text p' = TextNotFound)) as [|Hno]; [done|].
        destruct (Hbefore j p' Hj Hlt Hno).
    + intros Hmissing. eexists. unfold load_document_set_id.
      rewrite <-(app_nil_r document_set_id_paths).
      rewrite load_document_set_id_from_missing by done. reflexivity.
Qed.

Lemma load_document_set_id_witness :
  load_document_set_id id_in_data (λ s, s)
  = Returned [SuccessDocumentSetIdLoaded "data/panama_document_set_id.txt"]
      (Some "ds-1")
  ∧ ∃ shown, load_document_set_id (λ _, TextNotFound) (λ s, s)
             = Returned shown None.
Proof.
  split.
  - destruct (load_document_set_id_first_found id_in_data (λ s, s)) as [Hfound _].
    apply (Hfound 2 "data/panama_document_set_id.txt" "ds-1"); [reflexivity| |reflexivity].
    intros p Hp. simpl in Hp. rewrite !elem_of_cons, elem_of_nil in Hp.
    destruct Hp as [->|[->|[]]]; reflexivity.
  - destruct (load_document_set_id_first_found (λ _, TextNotFound) (λ s, s))
      as [_ Hnone].
    apply Hnone. reflexivity.
Defined.
